(** * distributed_dp/fl_utils.py: parameter derivation and aggregator composition

    A shallow embedding of [get_total_dim], [pad_dim] and [build_aggregator]
    and of the modular reduction used by the modular clipping stage.

    Number model.  Python's [int] and [float] compare by value ([4 == 4.0]),
    so one numeric domain is used: exact rationals [Q] for the flags and the
    derived quantities, [Z] for counts and bit widths, [N] for tensor sizes.
    In [build_aggregator] floating-point rounding, infinities and NaN are not
    represented: [/] is exact division and raises [ZeroDivisionError] on a
    zero divisor, and [np.sqrt] is a collaborator of the construction like
    the accountant.  In [pad_dim] the rounding of [np.log2] decides the
    result, and it is modelled: see [Dimension]. *)

From Stdlib Require Import ZArith NArith QArith Qpower Qfield Lia Lqa List Ascii String.
From stdpp Require Import gmap strings.

Set Warnings "-register-all".
Local Open Scope Z_scope.

(** ** Dimension calculator *)

Module Dimension.

(** A tensor shape is a tuple of sizes; [np.prod(())] is 1. *)
Definition shape := list N.

(** Sizes are taken in [N]: what numpy computes in int64 (and in float64
    once a scalar tensor contributes the float [1.0]) is this number as long
    as it stays below [2^53]. *)
Definition np_prod (s : shape) : N := fold_right N.mul 1%N s.

(** [sum(np.prod(x.shape) for x in client_template)] *)
Definition get_total_dim (client_template : list shape) : N :=
  fold_left N.add (map np_prod client_template) 0%N.

(** The float64 nearest to an int64 value, ties to even: the conversion
    [np.log2] applies to an integer argument.  Below [2^53] it changes
    nothing. *)
Definition to_float64 (n : N) : N :=
  if (N.size n <=? 53)%N then n
  else
    let shift := (N.size n - 53)%N in
    let q := N.shiftr n shift in
    let r := (n mod 2 ^ shift)%N in
    let half := (2 ^ (shift - 1))%N in
    let up := ((half <? r)%N || ((r =? half)%N && N.odd q))%bool in
    N.shiftl (if up then q + 1 else q)%N shift.

(** [np.ceil(np.log2(x))] for a float64 [x >= 1] of integer value, with
    [np.log2] taken as the binary logarithm rounded to the nearest float64.
    With [k] the integer part of the logarithm, the rounded logarithm lies
    in [[k, k + 1]], so its ceiling is [k] when it is the float [k] and
    [k + 1] otherwise.  The floats from [k] upwards are [2^(e - 52)] apart,
    [e] the integer part of [log2 k]: the logarithm rounds to [k] exactly
    when [log2 (x / 2^k) < 2^(e - 53)], that is when [x^J < 2 * (2^k)^J]
    for [J = 2^(53 - e)] (the two sides are never equal).  The test before
    it is a shortcut for the same comparison, by [log2 (1 + t) >= t] on
    [[0, 1]]: [ceil_log2_float64_spec] below. *)
Definition ceil_log2_float64 (x : N) : N :=
  let k := N.log2 x in
  let m := (x - 2 ^ k)%N in
  if (m =? 0)%N then k
  else
    let J := (2 ^ (53 - N.log2 k))%N in
    if (2 ^ k <=? m * J)%N then (k + 1)%N
    else if (x ^ J <? 2 * (2 ^ k) ^ J)%N then k else (k + 1)%N.

(** [np.math.pow(2, np.ceil(np.log2(dim)))], for [dim] an int64.
    [np.log2(0)] is [-inf] and [math.pow(2, -inf)] is [0.0]; for [dim >= 1]
    the exponent is the ceiling of the rounded logarithm, and [math.pow]
    of two and an integer exponent below 1024 is exact.  The Python object
    returned is the float holding this integer. *)
Definition pad_dim (dim : N) : N :=
  if (dim =? 0)%N then 0%N else (2 ^ ceil_log2_float64 (to_float64 dim))%N.



Definition is_pow2 (n : N) : Prop := exists k : N, (n = 2 ^ k)%N.

End Dimension.

(** ** Modular clipping stage *)

Module ModularClipping.

(** Modelled from the spec: distributed_dp/modular_clipping_factory.py is
    not part of the sources at hand.  The stage reduces every coordinate,
    and the sum, into [[lo, hi)] by [((v - lo) mod (hi - lo)) + lo] with
    the floored modulus; [Z.modulo] takes the sign of the divisor, which
    is the floored modulus for [lo < hi]. *)
Definition modular_clip (lo hi v : Z) : Z := (v - lo) mod (hi - lo) + lo.

(** The truncating variant, for contrast: [Z.rem] rounds toward zero. *)
Definition truncating_clip (lo hi v : Z) : Z := Z.rem (v - lo) (hi - lo) + lo.

Definition modular_clip_vec (lo hi : Z) (x : list Z) : list Z :=
  map (modular_clip lo hi) x.

End ModularClipping.

(** ** Python values, exceptions and the construction monad *)

Module Py.

(** Values stored in the params dictionaries. *)
Inductive value :=
| VNone
| VNum (q : Q)
| VStr (s : string).

Definition VInt (z : Z) : value := VNum (inject_Z z).
Definition VNat (n : N) : value := VNum (inject_Z (Z.of_N n)).
Definition VOpt (o : option Q) : value :=
  match o with Some q => VNum q | None => VNone end.

(** A Python dict with string keys. *)
Abbreviation dict := (gmap string value).

(** [d.update(e)]: the entries of [e] win. *)
Definition update (d e : dict) : dict := e ∪ d.

(** The three [assert] statements of build_aggregator, with the value the
    message is formatted with. *)
Inductive assert_msg :=
| NormClipMustBePositive                 (* 'Norm clip must be positive.' *)
| EpsilonShouldBePositive (found : Q)    (* f'Epsilon should be positive, found {epsilon}.' *)
| ClipMustBePositive (found : option Q). (* f'Clip must be positive, found {clip}.' *)

(** What a collaborator raises is propagated unchanged. *)
Inductive exn :=
| AssertionError (m : assert_msg)
| ValueError (msg : string)
| ZeroDivisionError
| Propagated (what : string).

(** The spec's names for the failures of the construction. *)
Definition InvalidBudget (e : exn) : Prop := exists m, e = AssertionError m.
Definition UnsupportedMechanism (e : exn) : Prop := exists msg, e = ValueError msg.

Definition Qltb (x y : Q) : bool := (Qnum x * QDen y <? Qnum y * QDen x)%Z.

(** Truthiness of a number: [0] and [0.0] are falsy. *)
Definition truthy (q : Q) : bool := negb (Qeq_bool q 0).

Definition ascii_lower (c : ascii) : ascii :=
  let n := nat_of_ascii c in
  if ((65 <=? n)%nat && (n <=? 90)%nat)%bool then ascii_of_nat (n + 32) else c.

(** [str.lower] on the letters A to Z.  Mechanism strings are taken to be
    ASCII; no other character lowers to a letter of 'gaussian' or
    'ddgauss', so the branch taken is the same for any string. *)
Fixpoint lower (s : string) : string :=
  match s with
  | EmptyString => EmptyString
  | String c s' => String (ascii_lower c) (lower s')
  end.

Section Monad.
(** Construction is a sequence of observable steps (log records, calls to
    collaborators, stages built) that ends in a value or an exception. *)
Context {event : Type}.

Definition M (A : Type) : Type := list event -> list event * (exn + A).

Definition ret {A} (a : A) : M A := fun tr => (tr, inr a).
Definition raise {A} (e : exn) : M A := fun tr => (tr, inl e).
Definition emit (e : event) : M unit := fun tr => (tr ++ [e], inr tt).
Definition bind {A B} (m : M A) (k : A -> M B) : M B :=
  fun tr => match m tr with
            | (tr', inr a) => k a tr'
            | (tr', inl e) => (tr', inl e)
            end.
Definition run {A} (m : M A) : list event * (exn + A) := m [].

(** [assert b, msg] *)
Definition py_assert (b : bool) (msg : assert_msg) : M unit :=
  if b then ret tt else raise (AssertionError msg).

(** [x / y] on floats *)
Definition py_div (x y : Q) : M Q :=
  if Qeq_bool y 0 then raise ZeroDivisionError else ret (x / y)%Q.

(** [x or e] where [x] is [None] or a number: [e] is evaluated only
    when [x] is falsy. *)
Definition py_or (x : option Q) (e : M Q) : M Q :=
  match x with
  | Some q => if truthy q then ret q else e
  | None => e
  end.

(** The result of a collaborator, its exception propagated. *)
Definition lift_result {A} (r : string + A) : M A :=
  match r with
  | inl what => raise (Propagated what)
  | inr a => ret a
  end.
End Monad.

Arguments M : clear implicits.

End Py.

Declare Scope py_scope.
Delimit Scope py_scope with py.
Notation "x <- m ;; k" := (Py.bind m (fun x => k))
  (at level 100, m at next level, right associativity) : py_scope.
Notation "m ;; k" := (Py.bind m (fun _ => k))
  (at level 100, right associativity) : py_scope.

(** ** build_aggregator *)

Module FlUtils.
Import Py Dimension.
Local Open Scope py_scope.

(** [dp_flags]: the keys build_aggregator reads.  A missing flag is [None]. *)
Record DpFlags := {
  l2_norm_clip : option Q;
  epsilon : option Q;
  delta : option Q;
  dp_mechanism : string;
}.

(** [compression_flags] *)
Record CompressionFlags := {
  k_stddevs : option Q;
  beta : Q;
  num_bits : Z;
}.

(** [ddpquery_utils.build_ddp_query(...)]: the query object is kept as the
    arguments it was built from. *)
Inductive ddp_query :=
| build_ddp_query (mechanism : string) (local_stddev l2_norm_bound beta : Q)
    (padded_dim : N) (scale : Q) (client_template : list shape).

(** The aggregation stages, each holding the stage it wraps. *)
Inductive factory :=
| SumFactory
| UnweightedMeanFactory (value_sum_factory : option factory)
| clipping_factory (clipping_norm : Q) (inner_agg_factory : factory)
| ModularClippingSumFactory (clip_range_lower clip_range_upper : Q)
    (inner_agg_factory : factory)
| DifferentiallyPrivateFactory (query : ddp_query)
    (record_aggregation_factory : factory)
| gaussian_fixed (noise_multiplier : Q) (clients_per_round : Z) (clip : Q).

(** Calls into accounting_utils, with their keyword arguments in the order
    of the call sites. *)
Inductive call :=
| get_gauss_noise_multiplier_call
    (target_eps target_delta target_sampling_rate : Q) (steps : Z)
| ddgauss_params_call
    (q epsilon l2_clip_norm : Q) (bits num_clients : Z) (dim : N)
    (delta beta : Q) (steps : Z) (k : Q)
| rounded_l2_norm_bound_call (l2_norm_bound beta : Q) (dim : N).

Inductive event :=
| Logged (msg : string) (args : list value)   (* logging.info(msg, *args) *)
| LoggedDict (d : dict)                       (* logging.info(pprint.pformat(d)) *)
| Called (c : call)
| QueryBuilt (query : ddp_query)
| Built (stage : factory).

(** The privacy accountant and numpy's square root.  The accountant either
    returns or raises; what it raises is named by a string. *)
Record collaborators := {
  get_gauss_noise_multiplier : Q -> Q -> Q -> Z -> string + Q;
  ddgauss_params :
    Q -> Q -> Q -> Z -> Z -> N -> Q -> Q -> Z -> Q -> string + (Q * Q);
  rounded_l2_norm_bound : Q -> Q -> N -> string + Q;
  np_sqrt : Z -> Q;
}.

Definition logging_info (msg : string) (args : list value) : M event unit :=
  emit (Logged msg args).

Definition logging_dict (d : dict) : M event unit := emit (LoggedDict d).

(** Calling the constructor of a stage.  The constructors of
    [tff.aggregators] and of the DP query are taken to return: what they
    reject in their arguments is not part of this model. *)
Definition construct (stage : factory) : M event factory :=
  emit (Built stage) ;; ret stage.

Definition calling {A} (c : call) (r : string + A) : M event A :=
  emit (Called c) ;; lift_result r.

Section Branches.
Variable env : collaborators.
Variable compression_flags : CompressionFlags.
Variable dp_flags : DpFlags.
Variables num_clients num_clients_per_round num_rounds : Z.
Variable client_template : list shape.

(** Lines 43-49.  No DP (but still do the clipping if necessary). *)
Definition vanilla (clip : option Q) : M event (factory * dict) :=
  agg_factory <- construct (UnweightedMeanFactory None) ;;
  agg_factory <- match clip with
                 | Some c =>
                     py_assert (Qltb 0 c) NormClipMustBePositive ;;
                     construct (clipping_factory c agg_factory)
                 | None => ret agg_factory
                 end ;;
  logging_info "Using vanilla aggregation with clipping %s" [VOpt clip] ;;
  let params_dict : dict := {[ "clip" := VOpt clip ]} in
  ret (agg_factory, params_dict).

(** Lines 59-69: the shared [params_dict]. *)
Definition shared_params (epsilon delta clip : Q) (dim : N)
    (sampling_rate : Q) (mechanism : string) : dict :=
  <[ "epsilon" := VNum epsilon ]> (
  <[ "delta" := VNum delta ]> (
  <[ "clip" := VNum clip ]> (
  <[ "dim" := VNat dim ]> (
  <[ "sampling_rate" := VNum sampling_rate ]> (
  <[ "mechanism" := VStr mechanism ]> (
  <[ "num_clients" := VInt num_clients ]> (
  <[ "num_clients_per_round" := VInt num_clients_per_round ]> (
  <[ "num_rounds" := VInt num_rounds ]> ∅)))))))).

(** Lines 75-90.  Baseline: continuous Gaussian. *)
Definition gaussian (params_dict : dict) (epsilon delta clip sampling_rate : Q)
    : M event (factory * dict) :=
  noise_mult <- calling
    (get_gauss_noise_multiplier_call epsilon delta sampling_rate num_rounds)
    (get_gauss_noise_multiplier env epsilon delta sampling_rate num_rounds) ;;
  (* Operations include clipping on client and noising + averaging on
     server; no MeanFactory and ClippingFactory needed. *)
  agg_factory <- construct (gaussian_fixed noise_mult num_clients_per_round clip) ;;
  let gauss_params_dict : dict := {[ "noise_mult" := VNum noise_mult ]} in
  logging_info "Gaussian Parameters:" [] ;;
  logging_dict gauss_params_dict ;;
  let params_dict := update params_dict gauss_params_dict in
  ret (agg_factory, params_dict).

(** Lines 121-134: [discrete_params_dict]. *)
Definition discrete_params (bits : Z) (beta : Q) (dim padded_dim : N)
    (gamma scale k_stddevs local_stddev : Q) (mechanism : string)
    (inflated_l2 noise_mult_clip noise_mult_inflated : Q) : dict :=
  <[ "bits" := VInt bits ]> (
  <[ "beta" := VNum beta ]> (
  <[ "dim" := VNat dim ]> (
  <[ "padded_dim" := VNat padded_dim ]> (
  <[ "gamma" := VNum gamma ]> (
  <[ "scale" := VNum scale ]> (
  <[ "k_stddevs" := VNum k_stddevs ]> (
  <[ "local_stddev" := VNum local_stddev ]> (
  <[ "mechanism" := VStr mechanism ]> (
  <[ "inflated_l2" := VNum inflated_l2 ]> (
  <[ "noise_mult_clip" := VNum noise_mult_clip ]> (
  <[ "noise_mult_inflated" := VNum noise_mult_inflated ]> ∅))))))))))).

(** Lines 94-169.  Distributed Discrete Gaussian. *)
Definition ddgauss (params_dict : dict) (mechanism : string)
    (epsilon delta clip sampling_rate : Q) (dim : N)
    : M event (factory * dict) :=
  let padded_dim := pad_dim dim in
  k_stddevs <- py_or (k_stddevs compression_flags) (ret 4%Q) ;;
  let beta := beta compression_flags in
  let bits := num_bits compression_flags in
  (* Modular clipping has exclusive upper bound. *)
  let mod_clip_lo := (- (2 ^ (bits - 1)))%Q in
  let mod_clip_hi := (2 ^ (bits - 1))%Q in
  r <- calling
    (ddgauss_params_call sampling_rate epsilon clip bits num_clients_per_round
       padded_dim delta beta num_rounds k_stddevs)
    (ddgauss_params env sampling_rate epsilon clip bits num_clients_per_round
       padded_dim delta beta num_rounds k_stddevs) ;;
  let gamma := fst r in
  let local_stddev := snd r in
  scale <- py_div 1 gamma ;;
  let central_stddev := (local_stddev * np_sqrt env num_clients_per_round)%Q in
  noise_mult_clip <- py_div central_stddev clip ;;
  bound <- calling
    (rounded_l2_norm_bound_call (clip * scale)%Q beta padded_dim)
    (rounded_l2_norm_bound env (clip * scale)%Q beta padded_dim) ;;
  inflated_l2 <- py_div bound scale ;;
  noise_mult_inflated <- py_div central_stddev inflated_l2 ;;
  let discrete_params_dict :=
    discrete_params bits beta dim padded_dim gamma scale k_stddevs
      local_stddev mechanism inflated_l2 noise_mult_clip noise_mult_inflated in
  logging_info "DDGauss Parameters:" [] ;;
  logging_dict discrete_params_dict ;;
  let params_dict := update params_dict discrete_params_dict in
  (* Build nested aggregators. *)
  agg_factory <- construct SumFactory ;;
  (* 1. Modular clipping. *)
  agg_factory <- construct
    (ModularClippingSumFactory mod_clip_lo mod_clip_hi agg_factory) ;;
  (* 2. Quantization followed by the distributed DP mechanism. *)
  let ddp_query :=
    build_ddp_query mechanism local_stddev clip beta padded_dim scale
      client_template in
  emit (QueryBuilt ddp_query) ;;
  agg_factory <- construct (DifferentiallyPrivateFactory ddp_query agg_factory) ;;
  (* 3. L2 norm clipping as the first step. *)
  agg_factory <- construct (clipping_factory clip agg_factory) ;;
  (* 4. Apply a MeanFactory at last (mean can't be part of the discrete
     DPQueries as the records may become floats and hence break the
     decompression process). *)
  agg_factory <- construct (UnweightedMeanFactory (Some agg_factory)) ;;
  ret (agg_factory, params_dict).

(** Lines 52-172.  Parameters for DP, then the branch on the mechanism. *)
Definition private (epsilon : Q) (clip : option Q) : M event (factory * dict) :=
  py_assert (Qltb 0 epsilon) (EpsilonShouldBePositive epsilon) ;;
  clip <- match clip with
          | Some c => py_assert (Qltb 0 c) (ClipMustBePositive clip) ;; ret c
          | None => raise (AssertionError (ClipMustBePositive clip))
          end ;;
  sampling_rate <- py_div (inject_Z num_clients_per_round) (inject_Z num_clients) ;;
  (* Default to delta = 1 / N. *)
  delta <- py_or (delta dp_flags) (py_div 1 (inject_Z num_clients)) ;;
  let mechanism := lower (dp_mechanism dp_flags) in
  let dim := get_total_dim client_template in
  let params_dict := shared_params epsilon delta clip dim sampling_rate mechanism in
  logging_info "Shared DP Parameters:" [] ;;
  logging_dict params_dict ;;
  if String.eqb mechanism "gaussian" then
    gaussian params_dict epsilon delta clip sampling_rate
  else if String.eqb mechanism "ddgauss" then
    ddgauss params_dict mechanism epsilon delta clip sampling_rate dim
  else
    raise (ValueError ("Unsupported mechanism: " +:+ dp_mechanism dp_flags)).

(** [build_aggregator(compression_flags, dp_flags, num_clients,
    num_clients_per_round, num_rounds, client_template)]: the body of the
    function, its blocks being the definitions above. *)
Definition build_aggregator : M event (factory * dict) :=
  let clip := l2_norm_clip dp_flags in
  let epsilon := epsilon dp_flags in
  (* if epsilon is None or epsilon == -1 *)
  match epsilon with
  | None => vanilla clip
  | Some eps => if Qeq_bool eps (-1) then vanilla clip else private eps clip
  end.

End Branches.

(** Vocabulary of the statements. *)

(** The stages of a composed aggregator, innermost first.  An
    [UnweightedMeanFactory()] built without an inner factory sums plainly. *)
Inductive stage :=
| PlainSum
| ModularSum (lower upper : Q)
| DPQuery (query : ddp_query)
| L2Clip (norm : Q)
| UnweightedMean
| GaussianFixed (noise_multiplier : Q) (clients_per_round : Z) (clip : Q).

Fixpoint stages (f : factory) : list stage :=
  match f with
  | SumFactory => [PlainSum]
  | UnweightedMeanFactory None => [PlainSum; UnweightedMean]
  | UnweightedMeanFactory (Some g) => stages g ++ [UnweightedMean]
  | clipping_factory c g => stages g ++ [L2Clip c]
  | ModularClippingSumFactory lo hi g => stages g ++ [ModularSum lo hi]
  | DifferentiallyPrivateFactory q g => stages g ++ [DPQuery q]
  | gaussian_fixed z n c => [GaussianFixed z n c]
  end.

(** [dp_flags['delta'] or 1.0 / num_clients] and
    [compression_flags['k_stddevs'] or 4], as values. *)
Definition delta_or_default (d : option Q) (num_clients : Z) : Q :=
  match d with
  | Some q => if truthy q then q else (1 / inject_Z num_clients)%Q
  | None => (1 / inject_Z num_clients)%Q
  end.

Definition k_or_default (k : option Q) : Q :=
  match k with
  | Some q => if truthy q then q else 4%Q
  | None => 4%Q
  end.

(** Is the flag absent or zero? *)
Definition falsy (d : option Q) : bool :=
  match d with Some q => negb (truthy q) | None => true end.

(** Epsilon is [None] or the sentinel [-1]: no DP. *)
Definition sentinel (e : option Q) : Prop :=
  e = None \/ exists eps, e = Some eps /\ (eps == -1)%Q.

(** A DP mechanism is selected: epsilon is neither [None] nor the
    sentinel [-1]. *)
Definition dp_selected (dp_flags : DpFlags) (eps : Q) : Prop :=
  epsilon dp_flags = Some eps /\ ~ (eps == -1)%Q.

Definition calls (tr : list event) : list call :=
  omap (fun e => match e with Called c => Some c | _ => None end) tr.

Definition built (tr : list event) : list factory :=
  omap (fun e => match e with Built f => Some f | _ => None end) tr.

(** Modelled from the spec: distributed_dp/accounting_utils.py is not part
    of the sources at hand.  The spec has gamma as the quantization step,
    whose reciprocal [scale] is strictly positive, [local_stddev] as a
    standard deviation, and the rounded L2 bound as the clip norm increased
    by the rounding to the quantization grid (for [beta > 0]); numpy's
    square root is never negative. *)
Definition accountant_contract (env : collaborators) : Prop :=
  (forall q eps clip bits n dim delta beta steps k gamma local_stddev,
     ddgauss_params env q eps clip bits n dim delta beta steps k
       = inr (gamma, local_stddev) ->
     (0 < gamma)%Q /\ (0 <= local_stddev)%Q) /\
  (forall l2 beta dim bound,
     (0 < beta)%Q ->
     rounded_l2_norm_bound env l2 beta dim = inr bound -> (l2 <= bound)%Q) /\
  (forall n, (0 <= np_sqrt env n)%Q).

(** A stand-in for the collaborators, used by the examples: an accountant
    with constant answers, a rounding bound one above its argument and the
    integer square root. *)
Definition sample_env : collaborators := {|
  get_gauss_noise_multiplier := fun _ _ _ _ => inr (3 # 2);
  ddgauss_params := fun _ _ _ _ _ _ _ _ _ _ => inr (1 # 8, 5 # 1);
  rounded_l2_norm_bound := fun l2 _ _ => inr (l2 + 1)%Q;
  np_sqrt := fun n => inject_Z (Z.sqrt n);
|}.

Definition sample_compression : CompressionFlags :=
  {| k_stddevs := None; beta := 1 # 2; num_bits := 16 |}.

Definition sample_flags (mechanism : string) (delta : option Q) : DpFlags :=
  {| l2_norm_clip := Some 1%Q; epsilon := Some 2%Q; delta := delta;
     dp_mechanism := mechanism |}.

(** The result of a run that returned ([SumFactory] and the empty dict
    otherwise); used to name the outcome of an example. *)
Definition returned (r : list event * (exn + factory * dict)) : factory * dict :=
  match snd r with
  | inr x => x
  | inl _ => (SumFactory, ∅)
  end.

End FlUtils.

(** ** utils/datasets/emnist_dataset.py *)

Module EmnistDataset.
Import Py.
Local Open Scope py_scope.

Definition MAX_CLIENT_DATASET_SIZE : Z := 418.

Section Datasets.
(** What [tff.simulation.datasets.emnist.load_data] returns twice over: a
    [tff.simulation.ClientData]. *)
Context {client_data : Type}.

(** A [tf.data.Dataset], kept as the chain of calls that built it. *)
Inductive dataset :=
| create_tf_dataset_from_all_clients (cd : client_data)
| create_tf_dataset_for_client (cd : client_data) (client_id : string)
| shuffle (buffer_size : Z) (d : dataset)
| repeat (count : Z) (d : dataset)
| batch (batch_size : Z) (drop_remainder : bool) (d : dataset)
| map_reshape_emnist_element (d : dataset).

(** [dataset.shuffle(shuffle_buffer_size).repeat(num_epochs).batch(
    batch_size, drop_remainder=False).map(_reshape_emnist_element, ...)],
    as the chain of calls it makes; what [tf.data] rejects in their
    arguments is not part of this model. *)
Definition _preprocess (d : dataset)
    (shuffle_buffer_size num_epochs batch_size : Z) : dataset :=
  map_reshape_emnist_element
    (batch batch_size false (repeat num_epochs (shuffle shuffle_buffer_size d))).

(** [functools.partial(_preprocess, shuffle_buffer_size=..., num_epochs=...,
    batch_size=...)], and its call on a dataset. *)
Record partial_preprocess := {
  shuffle_buffer_size : Z;
  num_epochs : Z;
  batch_size : Z;
}.

Definition call_partial (fn : partial_preprocess) (d : dataset) : dataset :=
  _preprocess d (shuffle_buffer_size fn) (num_epochs fn) (batch_size fn).

(** [client_data.preprocess(fn)] *)
Inductive preprocessed_client_data :=
| preprocess (cd : client_data) (fn : partial_preprocess).

Inductive event :=
| load_data_called (only_digits : bool).

(** The loader either returns the train and test client data or raises. *)
Variable load_data : bool -> string + (client_data * client_data).

Definition get_federated_datasets
    (train_client_batch_size test_client_batch_size
     train_client_epochs_per_round test_client_epochs_per_round
     train_shuffle_buffer_size test_shuffle_buffer_size : Z)
    (only_digits : bool)
    : M event (preprocessed_client_data * preprocessed_client_data) :=
  (if train_client_epochs_per_round <? 1 then
     raise (ValueError "train_client_epochs_per_round must be a positive integer.")
   else ret tt) ;;
  (if test_client_epochs_per_round <? 0 then
     raise (ValueError "test_client_epochs_per_round must be a positive integer.")
   else ret tt) ;;
  let train_shuffle_buffer_size :=
    if train_shuffle_buffer_size <=? 1 then 1 else train_shuffle_buffer_size in
  let test_shuffle_buffer_size :=
    if test_shuffle_buffer_size <=? 1 then 1 else test_shuffle_buffer_size in
  loaded <- (emit (load_data_called only_digits) ;;
             lift_result (load_data only_digits)) ;;
  let emnist_train := fst loaded in
  let emnist_test := snd loaded in
  let preprocess_train_dataset :=
    {| shuffle_buffer_size := train_shuffle_buffer_size;
       num_epochs := train_client_epochs_per_round;
       batch_size := train_client_batch_size |} in
  let preprocess_test_dataset :=
    {| shuffle_buffer_size := test_shuffle_buffer_size;
       num_epochs := test_client_epochs_per_round;
       batch_size := test_client_batch_size |} in
  let emnist_train := preprocess emnist_train preprocess_train_dataset in
  let emnist_test := preprocess emnist_test preprocess_test_dataset in
  ret (emnist_train, emnist_test).

(** The buffer sizes and the epoch counts a dataset was built with,
    outermost call first. *)
Fixpoint shuffle_buffers (d : dataset) : list Z :=
  match d with
  | create_tf_dataset_from_all_clients _ => []
  | create_tf_dataset_for_client _ _ => []
  | shuffle b d' => b :: shuffle_buffers d'
  | repeat _ d' => shuffle_buffers d'
  | batch _ _ d' => shuffle_buffers d'
  | map_reshape_emnist_element d' => shuffle_buffers d'
  end.

Fixpoint drops_remainder (d : dataset) : bool :=
  match d with
  | create_tf_dataset_from_all_clients _ => false
  | create_tf_dataset_for_client _ _ => false
  | shuffle _ d' => drops_remainder d'
  | repeat _ d' => drops_remainder d'
  | batch _ drop d' => drop || drops_remainder d'
  | map_reshape_emnist_element d' => drops_remainder d'
  end.

End Datasets.

Arguments dataset : clear implicits.
Arguments preprocessed_client_data : clear implicits.

(** A loader for the examples: the two splits by name. *)
Definition sample_load_data (only_digits : bool) : string + (string * string) :=
  inr (if only_digits then ("emnist10-train", "emnist10-test")
       else ("emnist62-train", "emnist62-test")).

End EmnistDataset.

(** * Properties *)

Section PadDim.
Import Dimension.
Local Open Scope N_scope.

Lemma to_float64_small (n : N) : n < 2 ^ 53 -> to_float64 n = n.
Proof.
  intros H. unfold to_float64.
  destruct (N.leb_spec (N.size n) 53) as [_|Hs]; [reflexivity|].
  exfalso. destruct (N.eq_dec n 0) as [->|Hn]; [discriminate Hs|].
  rewrite N.size_log2 in Hs by exact Hn.
  assert (N.log2 n < 53) by (apply N.log2_lt_pow2; lia). lia.
Qed.

Lemma log2_up_pow2_id (k : N) : N.log2_up (2 ^ k) = k.
Proof. apply N.log2_up_pow2. lia. Qed.

(** Bernoulli's inequality [(1 + m/a)^j >= 1 + j * m/a], without division. *)
Lemma bernoulli (a m j : N) : a ^ j * (a + j * m) <= a * (a + m) ^ j.
Proof.
  induction j as [|j IH] using N.peano_ind.
  - rewrite !N.pow_0_r. lia.
  - rewrite !N.pow_succ_r'.
    remember ((a + m) ^ j) as P eqn:EP. remember (a ^ j) as Q eqn:EQ.
    clear EP EQ.
    apply N.le_trans with ((a + m) * (Q * (a + j * m))).
    + replace (a * Q * (a + N.succ j * m))
        with (Q * (a * (a + N.succ j * m))) by lia.
      replace ((a + m) * (Q * (a + j * m)))
        with (Q * ((a + m) * (a + j * m))) by lia.
      apply N.mul_le_mono_l. nia.
    + replace (a * ((a + m) * P)) with ((a + m) * (a * P)) by lia.
      apply N.mul_le_mono_l. exact IH.
Qed.

(** The shortcut of [ceil_log2_float64] changes nothing: the ceiling is [k]
    exactly when [x] is [2^k] or [x^J < 2 * (2^k)^J]. *)
Lemma ceil_log2_float64_spec (x : N) :
  1 <= x ->
  ceil_log2_float64 x =
  if x =? 2 ^ N.log2 x then N.log2 x
  else if x ^ 2 ^ (53 - N.log2 (N.log2 x))
            <? 2 * (2 ^ N.log2 x) ^ 2 ^ (53 - N.log2 (N.log2 x))
       then N.log2 x else N.log2 x + 1.
Proof.
  intros H1. unfold ceil_log2_float64.
  assert (Hx : 0 < x) by lia.
  destruct (N.log2_spec x Hx) as [Hlo _].
  set (k := N.log2 x) in *. set (J := 2 ^ (53 - N.log2 k)).
  destruct (N.eqb_spec (x - 2 ^ k) 0) as [E|E];
    destruct (N.eqb_spec x (2 ^ k)) as [E'|E']; try reflexivity; try lia.
  destruct (N.leb_spec (2 ^ k) ((x - 2 ^ k) * J)) as [Hc|_]; [|reflexivity].
  destruct (N.ltb_spec (x ^ J) (2 * (2 ^ k) ^ J)) as [Hlt|_]; [|reflexivity].
  exfalso.
  pose proof (bernoulli (2 ^ k) (x - 2 ^ k) J) as HB.
  replace (2 ^ k + (x - 2 ^ k)) with x in HB by lia.
  assert (Ha : 0 < 2 ^ k).
  { assert (2 ^ k <> 0) by (apply N.pow_nonzero; lia). lia. }
  assert (H2 : (2 ^ k) ^ J * (2 * 2 ^ k) <= (2 ^ k) ^ J * (2 ^ k + J * (x - 2 ^ k))).
  { apply N.mul_le_mono_l. lia. }
  assert (H3 : 2 ^ k * x ^ J < 2 ^ k * (2 * (2 ^ k) ^ J))
    by (apply N.mul_lt_mono_pos_l; assumption).
  remember (x ^ J) as P eqn:EP. remember ((2 ^ k) ^ J) as Q eqn:EQ.
  clear EP EQ. lia.
Qed.

(** Up to [2^49] the rounded logarithm is the float [k] only when the
    logarithm is [k]: the ceiling is the exact one. *)
Lemma ceil_log2_float64_exact (x : N) :
  1 <= x -> x <= 2 ^ 49 -> ceil_log2_float64 x = N.log2_up x.
Proof.
  intros H1 H49. unfold ceil_log2_float64.
  assert (Hx : 0 < x) by lia.
  destruct (N.log2_spec x Hx) as [Hlo Hhi].
  set (k := N.log2 x) in *.
  destruct (N.eqb_spec (x - 2 ^ k) 0) as [E|E].
  - assert (Ex : x = 2 ^ k) by lia.
    rewrite Ex. now rewrite log2_up_pow2_id.
  - assert (Hlt : 2 ^ k < x) by lia.
    assert (Hk : k <= 48).
    { destruct (N.le_gt_cases k 48) as [|Hgt]; [assumption|exfalso].
      assert (2 ^ 49 <= 2 ^ k) by (apply N.pow_le_mono_r; lia). lia. }
    assert (He : N.log2 k <= 5).
    { destruct (N.eq_dec k 0) as [->|Hk0]; [discriminate|].
      assert (N.log2 k < 6) by (apply N.log2_lt_pow2; [lia|];
        apply N.le_lt_trans with 48; [exact Hk | reflexivity]).
      lia. }
    assert (HJ : 2 ^ k <= 2 ^ (53 - N.log2 k)) by (apply N.pow_le_mono_r; lia).
    assert (Hm : 1 <= x - 2 ^ k) by lia.
    destruct (N.leb_spec (2 ^ k) ((x - 2 ^ k) * 2 ^ (53 - N.log2 k))) as [_|Hc].
    + symmetry. apply N.log2_up_unique; [lia|].
      replace (N.pred (k + 1)) with k by lia.
      rewrite N.add_1_r. lia.
    + exfalso.
      assert (1 * 2 ^ (53 - N.log2 k) <= (x - 2 ^ k) * 2 ^ (53 - N.log2 k))
        by (apply N.mul_le_mono_r; exact Hm).
      lia.
Qed.

Lemma pad_dim_exact (dim : N) :
  1 <= dim -> dim <= 2 ^ 49 -> pad_dim dim = 2 ^ N.log2_up dim.
Proof.
  intros H1 H49. unfold pad_dim.
  destruct (N.eqb_spec dim 0) as [E|_]; [lia|].
  rewrite to_float64_small.
  - now rewrite ceil_log2_float64_exact.
  - apply N.le_lt_trans with (2 ^ 49); [exact H49 | reflexivity].
Qed.

Lemma pad_dim_ge (dim : N) : 1 <= dim -> dim <= 2 ^ 49 -> dim <= pad_dim dim.
Proof.
  intros H Hmax. rewrite pad_dim_exact by assumption.
  destruct (N.eq_dec dim 1) as [->|Hne]; [reflexivity|].
  apply (N.log2_up_spec dim). lia.
Qed.


Lemma pad_dim_fix (dim : N) : dim <= 2 ^ 49 -> is_pow2 dim -> pad_dim dim = dim.
Proof.
  intros Hmax [k ->].
  rewrite pad_dim_exact.
  - now rewrite log2_up_pow2_id.
  - assert (2 ^ k <> 0) by (apply N.pow_nonzero; lia). lia.
  - exact Hmax.
Qed.

(** Up to [2^49] the padded dimension is the least power of two that is
    not below [dim]. *)
Lemma pad_dim_least (dim k : N) :
  1 <= dim -> dim <= 2 ^ 49 -> dim <= 2 ^ k -> pad_dim dim <= 2 ^ k.
Proof.
  intros H Hmax Hk. rewrite pad_dim_exact by assumption.
  apply N.pow_le_mono_r; [lia|].
  rewrite <- (log2_up_pow2_id k). apply N.log2_up_le_mono. exact Hk.
Qed.









End PadDim.

(** ** Stepping through a construction *)

Section Stepping.
Import Py FlUtils.

Lemma Qltb_lt (x y : Q) : Qltb x y = true <-> (x < y)%Q.
Proof. unfold Qltb, Qlt. apply Z.ltb_lt. Qed.

Lemma Qltb_ge (x y : Q) : Qltb x y = false <-> (y <= x)%Q.
Proof. unfold Qltb, Qle. rewrite Z.ltb_ge. reflexivity. Qed.

Lemma Qeq_bool_false (x y : Q) : Qeq_bool x y = false <-> ~ (x == y)%Q.
Proof.
  split.
  - intros H E. apply Qeq_bool_iff in E. congruence.
  - intros H. destruct (Qeq_bool x y) eqn:E; [|reflexivity].
    apply Qeq_bool_iff in E. contradiction.
Qed.

Lemma inject_Z_eq0 (z : Z) : Qeq_bool (inject_Z z) 0 = false <-> z <> 0.
Proof.
  rewrite Qeq_bool_false. unfold Qeq. simpl. lia.
Qed.

Lemma truthy_falsy (d : option Q) :
  falsy d = true <-> d = None \/ exists q, d = Some q /\ (q == 0)%Q.
Proof.
  unfold falsy, truthy. destruct d as [q|].
  - rewrite negb_involutive, Qeq_bool_iff. split.
    + intros H. right. exists q. auto.
    + intros [H|(q' & [= ->] & H)]; [discriminate | exact H].
  - split; auto.
Qed.

End Stepping.

Ltac py_red :=
  cbv beta iota zeta delta
    [Py.bind Py.ret Py.raise Py.emit Py.py_assert Py.py_div Py.py_or Py.run
     Py.lift_result FlUtils.construct FlUtils.calling FlUtils.logging_info
     FlUtils.logging_dict].

Ltac py_red_in H :=
  cbv beta iota zeta delta
    [Py.bind Py.ret Py.raise Py.emit Py.py_assert Py.py_div Py.py_or Py.run
     Py.lift_result FlUtils.construct FlUtils.calling FlUtils.logging_info
     FlUtils.logging_dict] in H.

(** Case analysis on the innermost test a stuck run is waiting for. *)
Ltac py_case :=
  match goal with
  | |- context [match ?x with _ => _ end] =>
      lazymatch x with
      | context [match _ with _ => _ end] => fail
      | _ => let E := fresh "E" in destruct x eqn:E; cbv beta iota zeta
      end
  end.

Ltac py_case_in H :=
  match type of H with
  | context [match ?x with _ => _ end] =>
      lazymatch x with
      | context [match _ with _ => _ end] => fail
      | _ => let E := fresh "E" in
             destruct x eqn:E; cbv beta iota zeta in H; try discriminate H
      end
  end.

Section Branching.
Import Py Dimension FlUtils.

Variable env : collaborators.
Variable cf : CompressionFlags.
Variable df : DpFlags.
Variables num_clients num_clients_per_round num_rounds : Z.
Variable tmpl : list shape.

Abbreviation build :=
  (build_aggregator env cf df num_clients num_clients_per_round num_rounds tmpl).

Lemma build_vanilla :
  sentinel (epsilon df) -> build = vanilla (l2_norm_clip df).
Proof.
  unfold build_aggregator.
  intros [-> | (eps & -> & He)]; [reflexivity|].
  apply Qeq_bool_iff in He. now rewrite He.
Qed.

Lemma build_private (eps : Q) :
  dp_selected df eps ->
  build = private env cf df num_clients num_clients_per_round num_rounds tmpl
            eps (l2_norm_clip df).
Proof.
  unfold build_aggregator. intros [-> He].
  apply Qeq_bool_false in He. now rewrite He.
Qed.

Lemma vanilla_none (tr : list event) :
  vanilla None tr =
  (tr ++ [Built (UnweightedMeanFactory None)]
      ++ [Logged "Using vanilla aggregation with clipping %s" [VNone]],
   inr (UnweightedMeanFactory None, {[ "clip" := VNone ]})).
Proof. unfold vanilla. py_red. now rewrite <- app_assoc. Qed.

Lemma vanilla_clip_pos (c : Q) (tr : list event) :
  (0 < c)%Q ->
  vanilla (Some c) tr =
  (tr ++ [Built (UnweightedMeanFactory None)]
      ++ [Built (clipping_factory c (UnweightedMeanFactory None))]
      ++ [Logged "Using vanilla aggregation with clipping %s" [VNum c]],
   inr (clipping_factory c (UnweightedMeanFactory None), {[ "clip" := VNum c ]})).
Proof.
  intros Hc. apply Qltb_lt in Hc. unfold vanilla. py_red. rewrite Hc.
  cbv beta iota zeta. now rewrite <- !app_assoc.
Qed.

Lemma vanilla_clip_nonpos (c : Q) (tr : list event) :
  (c <= 0)%Q ->
  vanilla (Some c) tr =
  (tr ++ [Built (UnweightedMeanFactory None)],
   inl (AssertionError NormClipMustBePositive)).
Proof.
  intros Hc. apply Qltb_ge in Hc. unfold vanilla. py_red. rewrite Hc.
  reflexivity.
Qed.

End Branching.

(** ** The path without DP *)

Section NoDP.
Import Py Dimension FlUtils.

Abbreviation mean := (UnweightedMeanFactory None).
Abbreviation vanilla_log v :=
  (Logged "Using vanilla aggregation with clipping %s" [v]).

(** C6: with [epsilon = 0] the construction fails on the epsilon assertion
    (the spec's InvalidBudget), before anything is built; with [epsilon] the
    sentinel [-1] or [None] it takes the branch without DP and returns an
    unweighted mean, wrapped in a clipping stage exactly when [clip] is set,
    the clip then having to be positive (the assertion 'Norm clip must be
    positive.'). *)
Theorem epsilon_zero_fails_sentinel_is_vanilla
    (env : collaborators) (cf : CompressionFlags) (df : DpFlags)
    (Nc n R : Z) (tmpl : list shape) :
  let r := run (build_aggregator env cf df Nc n R tmpl) in
  (forall e, epsilon df = Some e -> (e == 0)%Q ->
     r = ([], inl (AssertionError (EpsilonShouldBePositive e)))) /\
  (sentinel (epsilon df) ->
     match l2_norm_clip df with
     | None =>
         r = ([Built mean; vanilla_log VNone], inr (mean, {[ "clip" := VNone ]}))
     | Some c =>
         ((0 < c)%Q ->
          r = ([Built mean; Built (clipping_factory c mean); vanilla_log (VNum c)],
               inr (clipping_factory c mean, {[ "clip" := VNum c ]}))) /\
         ((c <= 0)%Q ->
          r = ([Built mean], inl (AssertionError NormClipMustBePositive)))
     end).
Proof.
  intros r. subst r. split.
  - intros e He H0.
    assert (Hsel : dp_selected df e).
    { split; [exact He|]. rewrite H0. discriminate. }
    unfold run. rewrite (build_private _ _ _ _ _ _ _ _ Hsel).
    unfold private. py_red.
    assert (Hlt : Qltb 0 e = false) by (apply Qltb_ge; rewrite H0; apply Qle_refl).
    now rewrite Hlt.
  - intros Hs. unfold run. rewrite (build_vanilla _ _ _ _ _ _ _ Hs).
    destruct (l2_norm_clip df) as [c|].
    + split; intros Hc.
      * now rewrite vanilla_clip_pos.
      * now rewrite vanilla_clip_nonpos.
    + now rewrite vanilla_none.
Qed.

Lemma epsilon_zero_fails_sentinel_is_vanilla_witness :
  let build eps clip :=
    run (build_aggregator sample_env sample_compression
           {| l2_norm_clip := clip; epsilon := eps; delta := None;
              dp_mechanism := "ddgauss" |} 1000 100 10 [[1000%N; 1000%N]]) in
  build (Some 0%Q) (Some 1%Q)
    = ([], inl (AssertionError (EpsilonShouldBePositive 0))) /\
  build (Some (-1)%Q) None
    = ([Built mean; vanilla_log VNone], inr (mean, {[ "clip" := VNone ]})) /\
  build None (Some 1%Q)
    = ([Built mean; Built (clipping_factory 1 mean); vanilla_log (VNum 1)],
       inr (clipping_factory 1 mean, {[ "clip" := VNum 1 ]})) /\
  build (Some (-1)%Q) (Some 0%Q)
    = ([Built mean], inl (AssertionError NormClipMustBePositive)).
Proof.
  cbv zeta. split; [|split; [|split]].
  - apply (epsilon_zero_fails_sentinel_is_vanilla sample_env sample_compression
             {| l2_norm_clip := Some 1%Q; epsilon := Some 0%Q; delta := None;
                dp_mechanism := "ddgauss" |} 1000 100 10 [[1000%N; 1000%N]]);
      reflexivity.
  - apply (epsilon_zero_fails_sentinel_is_vanilla sample_env sample_compression
             {| l2_norm_clip := None; epsilon := Some (-1)%Q; delta := None;
                dp_mechanism := "ddgauss" |} 1000 100 10 [[1000%N; 1000%N]]).
    right. exists (-1)%Q. split; reflexivity.
  - apply (epsilon_zero_fails_sentinel_is_vanilla sample_env sample_compression
             {| l2_norm_clip := Some 1%Q; epsilon := None; delta := None;
                dp_mechanism := "ddgauss" |} 1000 100 10 [[1000%N; 1000%N]]).
    + left. reflexivity.
    + reflexivity.
  - apply (epsilon_zero_fails_sentinel_is_vanilla sample_env sample_compression
             {| l2_norm_clip := Some 0%Q; epsilon := Some (-1)%Q; delta := None;
                dp_mechanism := "ddgauss" |} 1000 100 10 [[1000%N; 1000%N]]).
    + right. exists (-1)%Q. split; reflexivity.
    + discriminate.
Defined.

(** C9, as stated, fails: with the sentinel epsilon and a clip that is set
    but not positive, build_aggregator does not return the no-DP aggregator:
    it raises on 'Norm clip must be positive.' after building the mean. *)
Lemma no_dp_path_rejects_nonpositive_clip :
  run (build_aggregator sample_env sample_compression
         {| l2_norm_clip := Some 0%Q; epsilon := Some (-1)%Q; delta := None;
            dp_mechanism := "ddgauss" |} 1000 100 10 [[1000%N; 1000%N]])
  = ([Built mean], inl (AssertionError NormClipMustBePositive)).
Proof. vm_compute. reflexivity. Qed.

(** C9, amended: when epsilon is [None] or [-1], and clip is [None] or
    positive, build_aggregator returns the no-DP aggregator and a params
    record that holds the clip value only, with no call to the accountant;
    a clip that is set and not positive fails the assertion 'Norm clip must
    be positive.' instead.  Whatever clip is, the outcome is the same for
    every mechanism string, every compression flag, every delta, schedule,
    template and accountant (none of them is read), and it is never
    UnsupportedMechanism. *)
Theorem no_dp_path_ignores_mechanism
    (env : collaborators) (cf : CompressionFlags) (df : DpFlags)
    (Nc n R : Z) (tmpl : list shape)
    (Hs : sentinel (epsilon df)) :
  let r := run (build_aggregator env cf df Nc n R tmpl) in
  ((forall c, l2_norm_clip df = Some c -> (0 < c)%Q) ->
   exists tr agg,
     r = (tr, inr (agg, {[ "clip" := VOpt (l2_norm_clip df) ]})) /\
     agg = match l2_norm_clip df with
           | Some c => clipping_factory c mean
           | None => mean
           end /\
     calls tr = []) /\
  (forall c, l2_norm_clip df = Some c -> (c <= 0)%Q ->
     snd r = inl (AssertionError NormClipMustBePositive)) /\
  (forall env' cf' delta' mechanism' Nc' n' R' tmpl',
     run (build_aggregator env' cf'
            {| l2_norm_clip := l2_norm_clip df; epsilon := epsilon df;
               delta := delta'; dp_mechanism := mechanism' |} Nc' n' R' tmpl')
     = r) /\
  (forall e, snd r = inl e -> ~ UnsupportedMechanism e).
Proof.
  intros r. subst r. unfold run.
  rewrite (build_vanilla _ _ _ _ _ _ _ Hs). split; [|split; [|split]].
  - intros Hc. destruct (l2_norm_clip df) as [c|].
    + rewrite vanilla_clip_pos by (apply Hc; reflexivity).
      do 2 eexists. split; [reflexivity|]. split; reflexivity.
    + rewrite vanilla_none. do 2 eexists. split; [reflexivity|]. split; reflexivity.
  - intros c -> Hc. now rewrite vanilla_clip_nonpos.
  - intros. now rewrite build_vanilla.
  - intros e He [msg ->]. revert He. unfold vanilla. py_red.
    destruct (l2_norm_clip df) as [c|]; [destruct (Qltb 0 c)|]; discriminate.
Qed.

Lemma no_dp_path_ignores_mechanism_witness :
  let df := {| l2_norm_clip := Some (1 # 2); epsilon := Some (-1)%Q;
               delta := Some 0%Q; dp_mechanism := "no-such-mechanism" |} in
  let r := run (build_aggregator sample_env sample_compression df 1000 100 10
                  [[1000%N; 1000%N]]) in
  sentinel (epsilon df) /\
  (forall c, l2_norm_clip df = Some c -> (0 < c)%Q) /\
  (exists tr agg,
     r = (tr, inr (agg, {[ "clip" := VNum (1 # 2) ]})) /\
     agg = clipping_factory (1 # 2) mean /\ calls tr = []) /\
  run (build_aggregator sample_env
         {| k_stddevs := Some 0%Q; beta := 2; num_bits := -3 |}
         {| l2_norm_clip := Some (1 # 2); epsilon := Some (-1)%Q;
            delta := Some 7%Q; dp_mechanism := "ddgauss" |} 0 0 0 [])
  = r.
Proof.
  cbv zeta.
  assert (Hs : sentinel (Some (-1)%Q)) by (right; exists (-1)%Q; split; reflexivity).
  assert (Hc : forall c : Q, Some (1 # 2) = Some c -> (0 < c)%Q)
    by (intros c [= <-]; reflexivity).
  pose proof (no_dp_path_ignores_mechanism sample_env sample_compression
    {| l2_norm_clip := Some (1 # 2); epsilon := Some (-1)%Q;
       delta := Some 0%Q; dp_mechanism := "no-such-mechanism" |}
    1000 100 10 [[1000%N; 1000%N]] Hs) as (Hret & _ & Hsame & _).
  split; [exact Hs|]. split; [exact Hc|].
  split; [exact (Hret Hc) | apply Hsame].
Defined.

End NoDP.

(** ** The DP path: budget assertions and dispatch on the mechanism *)

Section Private.
Import Py Dimension FlUtils.

Variable env : collaborators.
Variable cf : CompressionFlags.
Variable df : DpFlags.
Variables Nc n R : Z.
Variable tmpl : list shape.

Abbreviation private_ := (private env cf df Nc n R tmpl).

Lemma private_epsilon_nonpos (eps : Q) (clip : option Q) (tr : list event) :
  (eps <= 0)%Q ->
  private_ eps clip tr = (tr, inl (AssertionError (EpsilonShouldBePositive eps))).
Proof.
  intros H. apply Qltb_ge in H. unfold private. py_red. now rewrite H.
Qed.

Lemma private_clip_missing (eps : Q) (tr : list event) :
  (0 < eps)%Q ->
  private_ eps None tr = (tr, inl (AssertionError (ClipMustBePositive None))).
Proof.
  intros H. apply Qltb_lt in H. unfold private. py_red. now rewrite H.
Qed.

Lemma private_clip_nonpos (eps c : Q) (tr : list event) :
  (0 < eps)%Q -> (c <= 0)%Q ->
  private_ eps (Some c) tr = (tr, inl (AssertionError (ClipMustBePositive (Some c)))).
Proof.
  intros H Hc. apply Qltb_lt in H. apply Qltb_ge in Hc.
  unfold private. py_red. now rewrite H, Hc.
Qed.

Lemma private_no_clients (eps c : Q) (tr : list event) :
  (0 < eps)%Q -> (0 < c)%Q -> Nc = 0 ->
  private_ eps (Some c) tr = (tr, inl ZeroDivisionError).
Proof.
  intros H Hc ->. apply Qltb_lt in H. apply Qltb_lt in Hc.
  unfold private. py_red. now rewrite H, Hc.
Qed.

(** Past the assertions and the sampling rate, the shared parameters are
    logged and the mechanism selects the branch. *)
Lemma private_dispatch (eps c : Q) (tr : list event) :
  (0 < eps)%Q -> (0 < c)%Q -> Nc <> 0 ->
  let sampling_rate := (inject_Z n / inject_Z Nc)%Q in
  let delta := delta_or_default (delta df) Nc in
  let mechanism := lower (dp_mechanism df) in
  let dim := get_total_dim tmpl in
  let params_dict := shared_params Nc n R eps delta c dim sampling_rate mechanism in
  let tr' := tr ++ [Logged "Shared DP Parameters:" []; LoggedDict params_dict] in
  private_ eps (Some c) tr =
  if String.eqb mechanism "gaussian" then
    gaussian env n R params_dict eps delta c sampling_rate tr'
  else if String.eqb mechanism "ddgauss" then
    ddgauss env cf n R tmpl params_dict mechanism eps delta c sampling_rate dim tr'
  else (tr', inl (ValueError ("Unsupported mechanism: " +:+ dp_mechanism df))).
Proof.
  intros H Hc HN. cbv zeta.
  apply Qltb_lt in H. apply Qltb_lt in Hc. apply inject_Z_eq0 in HN.
  unfold private, delta_or_default. py_red. rewrite H, Hc, HN.
  cbv beta iota zeta.
  destruct (delta df) as [d|]; [destruct (truthy d)|];
    cbv beta iota zeta; rewrite <- !app_assoc;
    repeat (match goal with |- context [if ?b then _ else _] =>
              destruct b end); reflexivity.
Qed.

(** The baseline branch, run to its end. *)
Lemma gaussian_run (p : dict) (eps d c q : Q) (tr : list event) :
  let called := Called (get_gauss_noise_multiplier_call eps d q R) in
  gaussian env n R p eps d c q tr =
  match get_gauss_noise_multiplier env eps d q R with
  | inl what => (tr ++ [called], inl (Propagated what))
  | inr noise_mult =>
      (tr ++ [called; Built (gaussian_fixed noise_mult n c);
              Logged "Gaussian Parameters:" [];
              LoggedDict {[ "noise_mult" := VNum noise_mult ]}],
       inr (gaussian_fixed noise_mult n c,
            update p {[ "noise_mult" := VNum noise_mult ]}))
  end.
Proof.
  cbv zeta. unfold gaussian. py_red.
  destruct (get_gauss_noise_multiplier env eps d q R);
    cbv beta iota zeta; rewrite <- ?app_assoc; reflexivity.
Qed.

(** A failure of the discrete branch is a division by zero or comes from
    the accountant. *)
Lemma ddgauss_failure (p : dict) (m : string) (eps d c q : Q) (dim : N)
    (tr tr' : list event) (e : exn) :
  ddgauss env cf n R tmpl p m eps d c q dim tr = (tr', inl e) ->
  e = ZeroDivisionError \/ exists what, e = Propagated what.
Proof.
  intros H. unfold ddgauss in H. py_red_in H.
  repeat py_case_in H; injection H as <- <-; eauto.
Qed.

(** What a successful run of the discrete branch has computed and built. *)
Lemma ddgauss_success (p : dict) (m : string) (eps d c q : Q) (dim : N)
    (tr tr' : list event) (agg : factory) (params : dict) :
  ddgauss env cf n R tmpl p m eps d c q dim tr = (tr', inr (agg, params)) ->
  exists gamma local_stddev bound,
    let k := k_or_default (k_stddevs cf) in
    let bits := num_bits cf in
    let beta := beta cf in
    let padded_dim := pad_dim dim in
    let scale := (1 / gamma)%Q in
    let central_stddev := (local_stddev * np_sqrt env n)%Q in
    let inflated_l2 := (bound / scale)%Q in
    let query := build_ddp_query m local_stddev c beta padded_dim scale tmpl in
    let plain_sum := SumFactory in
    let modular :=
      ModularClippingSumFactory (- (2 ^ (bits - 1)))%Q (2 ^ (bits - 1))%Q plain_sum in
    let private_sum := DifferentiallyPrivateFactory query modular in
    let clipped := clipping_factory c private_sum in
    let discrete :=
      discrete_params bits beta dim padded_dim gamma scale k local_stddev m
        inflated_l2 (central_stddev / c)%Q (central_stddev / inflated_l2)%Q in
    ddgauss_params env q eps c bits n padded_dim d beta R k
      = inr (gamma, local_stddev) /\
    rounded_l2_norm_bound env (c * scale)%Q beta padded_dim = inr bound /\
    ~ (gamma == 0)%Q /\ ~ (scale == 0)%Q /\ ~ (inflated_l2 == 0)%Q /\
    agg = UnweightedMeanFactory (Some clipped) /\
    params = update p discrete /\
    tr' = tr ++
      [Called (ddgauss_params_call q eps c bits n padded_dim d beta R k);
       Called (rounded_l2_norm_bound_call (c * scale)%Q beta padded_dim);
       Logged "DDGauss Parameters:" []; LoggedDict discrete;
       Built plain_sum; Built modular; QueryBuilt query; Built private_sum;
       Built clipped; Built (UnweightedMeanFactory (Some clipped))].
Proof.
  intros H. unfold ddgauss in H. py_red_in H. unfold k_or_default.
  repeat py_case_in H; injection H as <- <- <-;
    match goal with
    | E : ddgauss_params _ _ _ _ _ _ _ _ _ _ _ = inr ?r |- _ =>
        destruct r as [gamma local_stddev]; cbn [fst snd] in *;
        exists gamma, local_stddev
    end;
    match goal with
    | E : rounded_l2_norm_bound _ _ _ _ = inr ?b |- _ => exists b
    end;
    cbv zeta; rewrite <- !app_assoc;
    repeat match goal with
           | E : Qeq_bool _ 0 = false |- _ => apply Qeq_bool_false in E
           end;
    repeat split; assumption || reflexivity.
Qed.

(** A construction on the DP path that returns has passed both assertions
    and divided by a non-zero number of clients. *)
Lemma private_success_guards (eps : Q) (clip : option Q) (tr tr' : list event)
    (x : factory * dict) :
  private_ eps clip tr = (tr', inr x) ->
  (0 < eps)%Q /\ exists c, clip = Some c /\ (0 < c)%Q /\ Nc <> 0.
Proof.
  intros H.
  destruct (Qlt_le_dec 0 eps) as [He|He];
    [|rewrite private_epsilon_nonpos in H by exact He; discriminate].
  split; [exact He|].
  destruct clip as [c|];
    [|rewrite private_clip_missing in H by exact He; discriminate].
  exists c. split; [reflexivity|].
  destruct (Qlt_le_dec 0 c) as [Hc|Hc];
    [|rewrite private_clip_nonpos in H by assumption; discriminate].
  split; [exact Hc|].
  intros HN. rewrite private_no_clients in H by assumption. discriminate.
Qed.

Lemma build_ddgauss_success (eps : Q) (tr : list event) (agg : factory)
    (params : dict) :
  dp_selected df eps ->
  lower (dp_mechanism df) = "ddgauss" ->
  run (build_aggregator env cf df Nc n R tmpl) = (tr, inr (agg, params)) ->
  exists c,
    let sampling_rate := (inject_Z n / inject_Z Nc)%Q in
    let delta := delta_or_default (delta df) Nc in
    let dim := get_total_dim tmpl in
    let shared := shared_params Nc n R eps delta c dim sampling_rate "ddgauss" in
    l2_norm_clip df = Some c /\ (0 < eps)%Q /\ (0 < c)%Q /\ Nc <> 0 /\
    ddgauss env cf n R tmpl shared "ddgauss" eps delta c sampling_rate dim
      [Logged "Shared DP Parameters:" []; LoggedDict shared]
    = (tr, inr (agg, params)).
Proof.
  intros Hsel Hm H. unfold run in H.
  rewrite (build_private _ _ _ _ _ _ _ _ Hsel) in H.
  destruct (private_success_guards _ _ _ _ _ H) as (He & c & Hclip & Hc & HN).
  exists c. cbv zeta. repeat (split; [assumption|]).
  rewrite Hclip, private_dispatch in H by assumption.
  cbv zeta in H. rewrite Hm in H. exact H.
Qed.

End Private.

(** ** The distributed discrete Gaussian *)

Section DDGauss.
Import Py Dimension FlUtils.

Lemma modular_range_width (bits : Z) :
  (2 ^ (bits - 1) - - (2 ^ (bits - 1)) == 2 ^ bits)%Q.
Proof.
  replace bits with ((bits - 1) + 1) at 3 by lia.
  rewrite Qpower_plus by discriminate.
  change (2 ^ 1)%Q with 2%Q. ring.
Qed.

Lemma lookup_discrete (p : dict) (bits : Z) (beta : Q) (dim padded_dim : N)
    (gamma scale k local_stddev : Q) (m : string)
    (inflated_l2 noise_mult_clip noise_mult_inflated : Q) :
  let params :=
    update p (discrete_params bits beta dim padded_dim gamma scale k
                local_stddev m inflated_l2 noise_mult_clip noise_mult_inflated) in
  params !! "gamma" = Some (VNum gamma) /\
  params !! "scale" = Some (VNum scale) /\
  params !! "local_stddev" = Some (VNum local_stddev) /\
  params !! "inflated_l2" = Some (VNum inflated_l2) /\
  params !! "noise_mult_clip" = Some (VNum noise_mult_clip) /\
  params !! "noise_mult_inflated" = Some (VNum noise_mult_inflated) /\
  params !! "padded_dim" = Some (VNat padded_dim) /\
  params !! "bits" = Some (VInt bits).
Proof.
  cbv zeta. unfold update, discrete_params.
  repeat split; apply lookup_union_Some_l; reflexivity.
Qed.

(** C1: a ddgauss construction that succeeds has asked the accountant for
    [(gamma, local_stddev)] and has derived
    [mod_clip_lo = -2^(bits-1)], [mod_clip_hi = 2^(bits-1)] (a range of
    width [2^bits], handed to the modular-sum stage), [scale = 1/gamma],
    [central_stddev = local_stddev * sqrt(num_clients_per_round)],
    [noise_mult_clip = central_stddev / clip] and
    [noise_mult_inflated = central_stddev / inflated_l2]. *)
Theorem ddgauss_derived_parameters
    (env : collaborators) (cf : CompressionFlags) (df : DpFlags)
    (Nc n R : Z) (tmpl : list shape) (eps : Q)
    (tr : list event) (agg : factory) (params : dict)
    (Hsel : dp_selected df eps)
    (Hm : lower (dp_mechanism df) = "ddgauss")
    (Hrun : run (build_aggregator env cf df Nc n R tmpl) = (tr, inr (agg, params))) :
  exists clip gamma local_stddev inflated_l2,
    let bits := num_bits cf in
    let mod_clip_lo := (- (2 ^ (bits - 1)))%Q in
    let mod_clip_hi := (2 ^ (bits - 1))%Q in
    let scale := (1 / gamma)%Q in
    let central_stddev := (local_stddev * np_sqrt env n)%Q in
    let noise_mult_clip := (central_stddev / clip)%Q in
    let noise_mult_inflated := (central_stddev / inflated_l2)%Q in
    l2_norm_clip df = Some clip /\
    ddgauss_params env (inject_Z n / inject_Z Nc)%Q eps clip bits n
      (pad_dim (get_total_dim tmpl)) (delta_or_default (delta df) Nc)
      (beta cf) R (k_or_default (k_stddevs cf)) = inr (gamma, local_stddev) /\
    In (ModularSum mod_clip_lo mod_clip_hi) (stages agg) /\
    (mod_clip_hi - mod_clip_lo == 2 ^ bits)%Q /\
    params !! "gamma" = Some (VNum gamma) /\
    params !! "scale" = Some (VNum scale) /\
    params !! "local_stddev" = Some (VNum local_stddev) /\
    params !! "inflated_l2" = Some (VNum inflated_l2) /\
    params !! "noise_mult_clip" = Some (VNum noise_mult_clip) /\
    params !! "noise_mult_inflated" = Some (VNum noise_mult_inflated).
Proof.
  destruct (build_ddgauss_success _ _ _ _ _ _ _ _ _ _ _ Hsel Hm Hrun)
    as (c & Hclip & _ & _ & _ & Hdd).
  destruct (ddgauss_success _ _ _ _ _ _ _ _ _ _ _ _ _ _ _ _ Hdd)
    as (gamma & local_stddev & bound & Hacct & _ & _ & _ & _ & -> & -> & _).
  exists c, gamma, local_stddev, (bound / (1 / gamma))%Q. cbv zeta.
  split; [exact Hclip|]. split; [exact Hacct|].
  split; [simpl; auto|].
  split; [apply modular_range_width|].
  match goal with
  | |- context [update ?p (discrete_params ?a ?b ?c ?d ?e ?f ?g ?h ?i ?j ?k ?l)] =>
      pose proof (lookup_discrete p a b c d e f g h i j k l) as L
  end.
  cbv zeta in L. tauto.
Qed.

Lemma ddgauss_derived_parameters_witness :
  let df := sample_flags "DDGauss" (Some (1 # 100000)) in
  let r := run (build_aggregator sample_env sample_compression df 1000 100 10
                  [[1000%N; 1000%N]]) in
  dp_selected df 2 /\ lower (dp_mechanism df) = "ddgauss" /\
  r = (fst r, inr (returned r)) /\
  In (ModularSum (- 32768)%Q 32768%Q) (stages (fst (returned r))) /\
  exists gamma local_stddev inflated_l2,
    ddgauss_params sample_env (inject_Z 100 / inject_Z 1000)%Q 2 1 16 100
      1048576%N (1 # 100000) (1 # 2) 10 4 = inr (gamma, local_stddev) /\
    snd (returned r) !! "scale" = Some (VNum (1 / gamma)) /\
    snd (returned r) !! "noise_mult_clip"
      = Some (VNum (local_stddev * np_sqrt sample_env 100 / 1)) /\
    snd (returned r) !! "noise_mult_inflated"
      = Some (VNum (local_stddev * np_sqrt sample_env 100 / inflated_l2)).
Proof.
  cbv zeta.
  set (df := sample_flags "DDGauss" (Some (1 # 100000))).
  set (r := run (build_aggregator sample_env sample_compression df 1000 100 10
                   [[1000%N; 1000%N]])).
  assert (Hsel : dp_selected df 2) by (split; [reflexivity | discriminate]).
  assert (Hm : lower (dp_mechanism df) = "ddgauss") by reflexivity.
  assert (Hrun : r = (fst r, inr (fst (returned r), snd (returned r))))
    by (vm_compute; reflexivity).
  destruct (ddgauss_derived_parameters sample_env sample_compression df
              1000 100 10 [[1000%N; 1000%N]] 2 _ _ _ Hsel Hm Hrun)
    as (clip & gamma & local_stddev & inflated_l2 & Hclip & Hacct & Hin & _ &
        _ & Hscale & _ & _ & Hnc & Hni).
  injection Hclip as <-.
  split; [exact Hsel|]. split; [exact Hm|].
  split; [vm_compute; reflexivity|]. split; [exact Hin|].
  exists gamma, local_stddev, inflated_l2.
  split; [exact Hacct|]. split; [exact Hscale|]. split; [exact Hnc | exact Hni].
Defined.

Lemma inflation_arith (c gamma local_stddev s bound : Q) :
  (0 < c)%Q -> (0 < gamma)%Q -> (0 <= local_stddev)%Q -> (0 <= s)%Q ->
  (c * (1 / gamma) <= bound)%Q ->
  (c <= bound / (1 / gamma))%Q /\
  (local_stddev * s / (bound / (1 / gamma)) <= local_stddev * s / c)%Q.
Proof.
  intros Hc Hg Hl Hs Hb.
  assert (Hscale : (0 < 1 / gamma)%Q).
  { unfold Qdiv. rewrite Qmult_1_l. now apply Qinv_lt_0_compat. }
  assert (Hinfl : (c <= bound / (1 / gamma))%Q)
    by (apply Qle_shift_div_l; assumption).
  split; [exact Hinfl|].
  set (infl := (bound / (1 / gamma))%Q) in *.
  set (x := (local_stddev * s)%Q).
  assert (Hx : (0 <= x)%Q) by (apply Qmult_le_0_compat; assumption).
  assert (Hi : (0 < infl)%Q) by exact (Qlt_le_trans 0 c infl Hc Hinfl).
  apply Qle_shift_div_r; [exact Hi|].
  assert (Hxc : (0 <= x / c)%Q).
  { unfold Qdiv. apply Qmult_le_0_compat; [exact Hx|].
    apply Qinv_le_0_compat. now apply Qlt_le_weak. }
  assert (Hxe : (x == x / c * c)%Q) by (field; intros E; rewrite E in Hc; discriminate).
  rewrite Hxe at 1.
  rewrite (Qmult_comm (x / c) c), (Qmult_comm (x / c) infl).
  now apply Qmult_le_compat_r.
Qed.

(** C7: for a ddgauss construction that succeeds with [beta > 0], against an
    accountant that keeps its contract, [clip <= inflated_l2] and
    [noise_mult_inflated <= noise_mult_clip]. *)
Theorem inflation_lowers_noise_multiplier
    (env : collaborators) (cf : CompressionFlags) (df : DpFlags)
    (Nc n R : Z) (tmpl : list shape) (eps : Q)
    (tr : list event) (agg : factory) (params : dict)
    (Hsel : dp_selected df eps)
    (Hm : lower (dp_mechanism df) = "ddgauss")
    (Hrun : run (build_aggregator env cf df Nc n R tmpl) = (tr, inr (agg, params)))
    (Hbeta : (0 < beta cf)%Q)
    (Hacct : accountant_contract env) :
  exists clip inflated_l2 noise_mult_clip noise_mult_inflated,
    l2_norm_clip df = Some clip /\
    params !! "inflated_l2" = Some (VNum inflated_l2) /\
    params !! "noise_mult_clip" = Some (VNum noise_mult_clip) /\
    params !! "noise_mult_inflated" = Some (VNum noise_mult_inflated) /\
    (clip <= inflated_l2)%Q /\
    (noise_mult_inflated <= noise_mult_clip)%Q.
Proof.
  destruct (build_ddgauss_success _ _ _ _ _ _ _ _ _ _ _ Hsel Hm Hrun)
    as (c & Hclip & _ & Hc & _ & Hdd).
  destruct (ddgauss_success _ _ _ _ _ _ _ _ _ _ _ _ _ _ _ _ Hdd)
    as (gamma & local_stddev & bound & Hret & Hbound & _ & _ & _ & _ & -> & _).
  destruct Hacct as (Hparams & Hround & Hsqrt).
  destruct (Hparams _ _ _ _ _ _ _ _ _ _ _ _ Hret) as [Hg Hl].
  pose proof (Hround _ _ _ _ Hbeta Hbound) as Hb.
  destruct (inflation_arith c gamma local_stddev (np_sqrt env n) bound
              Hc Hg Hl (Hsqrt n) Hb) as [Hinfl Hmult].
  exists c, (bound / (1 / gamma))%Q,
    (local_stddev * np_sqrt env n / c)%Q,
    (local_stddev * np_sqrt env n / (bound / (1 / gamma)))%Q.
  split; [exact Hclip|].
  match goal with
  | |- context [update ?p (discrete_params ?a ?b ?c ?d ?e ?f ?g ?h ?i ?j ?k ?l)] =>
      pose proof (lookup_discrete p a b c d e f g h i j k l) as L
  end.
  cbv zeta in L. tauto.
Qed.

Lemma sample_env_contract : accountant_contract sample_env.
Proof.
  split; [|split].
  - intros q eps clip bits n dim delta beta steps k gamma local_stddev [= <- <-].
    split; reflexivity || discriminate.
  - intros l2 beta dim bound _ [= <-].
    rewrite <- (Qplus_0_r l2) at 1. apply Qplus_le_r. discriminate.
  - intros n. simpl. unfold Qle. simpl. pose proof (Z.sqrt_nonneg n). lia.
Qed.

Lemma inflation_lowers_noise_multiplier_witness :
  let df := sample_flags "ddgauss" None in
  let r := run (build_aggregator sample_env sample_compression df 1000 100 10
                  [[1000%N; 1000%N]]) in
  dp_selected df 2 /\ lower (dp_mechanism df) = "ddgauss" /\
  r = (fst r, inr (returned r)) /\
  (0 < beta sample_compression)%Q /\ accountant_contract sample_env /\
  snd (returned r) !! "inflated_l2" = Some (VNum (9 # 8)) /\
  snd (returned r) !! "noise_mult_clip" = Some (VNum 50) /\
  snd (returned r) !! "noise_mult_inflated" = Some (VNum (400 # 9)) /\
  exists clip inflated_l2 noise_mult_clip noise_mult_inflated,
    l2_norm_clip df = Some clip /\
    snd (returned r) !! "inflated_l2" = Some (VNum inflated_l2) /\
    snd (returned r) !! "noise_mult_clip" = Some (VNum noise_mult_clip) /\
    snd (returned r) !! "noise_mult_inflated" = Some (VNum noise_mult_inflated) /\
    (clip <= inflated_l2)%Q /\
    (noise_mult_inflated <= noise_mult_clip)%Q.
Proof.
  cbv zeta.
  set (df := sample_flags "ddgauss" None).
  set (r := run (build_aggregator sample_env sample_compression df 1000 100 10
                   [[1000%N; 1000%N]])).
  assert (Hsel : dp_selected df 2) by (split; [reflexivity | discriminate]).
  assert (Hm : lower (dp_mechanism df) = "ddgauss") by reflexivity.
  assert (Hrun : r = (fst r, inr (fst (returned r), snd (returned r))))
    by (vm_compute; reflexivity).
  assert (Hbeta : (0 < beta sample_compression)%Q) by reflexivity.
  split; [exact Hsel|]. split; [exact Hm|].
  split; [vm_compute; reflexivity|]. split; [exact Hbeta|].
  split; [exact sample_env_contract|].
  split; [vm_compute; reflexivity|].
  split; [vm_compute; reflexivity|].
  split; [vm_compute; reflexivity|].
  exact (inflation_lowers_noise_multiplier sample_env sample_compression df
           1000 100 10 [[1000%N; 1000%N]] 2 _ _ _ Hsel Hm Hrun Hbeta
           sample_env_contract).
Defined.

(** C2: the aggregator of a ddgauss construction that succeeds is, from the
    inside out, a plain sum, the modular sum over
    [[mod_clip_lo, mod_clip_hi)], the DP-query stage built from
    [(local_stddev, clip, beta, padded_dim, scale)], the L2 clipping to
    [clip] and the unweighted mean; the stages are built in that order.  The
    clipping wraps the query, so a client value is clipped before it is
    quantized, and the mean wraps everything. *)
Theorem ddgauss_stage_order
    (env : collaborators) (cf : CompressionFlags) (df : DpFlags)
    (Nc n R : Z) (tmpl : list shape) (eps : Q)
    (tr : list event) (agg : factory) (params : dict)
    (Hsel : dp_selected df eps)
    (Hm : lower (dp_mechanism df) = "ddgauss")
    (Hrun : run (build_aggregator env cf df Nc n R tmpl) = (tr, inr (agg, params))) :
  exists clip gamma local_stddev,
    let bits := num_bits cf in
    let mod_clip_lo := (- (2 ^ (bits - 1)))%Q in
    let mod_clip_hi := (2 ^ (bits - 1))%Q in
    let padded_dim := pad_dim (get_total_dim tmpl) in
    let scale := (1 / gamma)%Q in
    let query :=
      build_ddp_query "ddgauss" local_stddev clip (beta cf) padded_dim scale tmpl in
    let plain_sum := SumFactory in
    let modular := ModularClippingSumFactory mod_clip_lo mod_clip_hi plain_sum in
    let private_sum := DifferentiallyPrivateFactory query modular in
    let clipped := clipping_factory clip private_sum in
    l2_norm_clip df = Some clip /\
    ddgauss_params env (inject_Z n / inject_Z Nc)%Q eps clip bits n padded_dim
      (delta_or_default (delta df) Nc) (beta cf) R (k_or_default (k_stddevs cf))
      = inr (gamma, local_stddev) /\
    agg = UnweightedMeanFactory (Some clipped) /\
    stages agg =
      [PlainSum; ModularSum mod_clip_lo mod_clip_hi; DPQuery query; L2Clip clip;
       UnweightedMean] /\
    built tr = [plain_sum; modular; private_sum; clipped; agg].
Proof.
  destruct (build_ddgauss_success _ _ _ _ _ _ _ _ _ _ _ Hsel Hm Hrun)
    as (c & Hclip & _ & _ & _ & Hdd).
  destruct (ddgauss_success _ _ _ _ _ _ _ _ _ _ _ _ _ _ _ _ Hdd)
    as (gamma & local_stddev & bound & Hacct & _ & _ & _ & _ & -> & _ & ->).
  exists c, gamma, local_stddev. cbv zeta.
  split; [exact Hclip|]. split; [exact Hacct|].
  split; [reflexivity|]. split; reflexivity.
Qed.

(** The spec's end-to-end figures: a million coordinates pad to [2^20], and
    16 bits give the modulus 65536. *)
Example end_to_end_padded_dim_and_modulus :
  pad_dim (get_total_dim [[1000%N; 1000%N]]) = 1048576%N /\
  (2 ^ (16 - 1) - - (2 ^ (16 - 1)) == 65536)%Q.
Proof. split; reflexivity. Qed.

Lemma ddgauss_stage_order_witness :
  let df := sample_flags "ddgauss" None in
  let r := run (build_aggregator sample_env sample_compression df 1000 100 10
                  [[1000%N; 1000%N]]) in
  let query :=
    build_ddp_query "ddgauss" 5 1 (1 # 2) 1048576 (1 / (1 # 8)) [[1000%N; 1000%N]] in
  dp_selected df 2 /\ lower (dp_mechanism df) = "ddgauss" /\
  r = (fst r, inr (returned r)) /\
  stages (fst (returned r)) =
    [PlainSum; ModularSum (- 32768)%Q 32768%Q; DPQuery query; L2Clip 1;
     UnweightedMean].
Proof.
  cbv zeta.
  set (df := sample_flags "ddgauss" None).
  set (r := run (build_aggregator sample_env sample_compression df 1000 100 10
                   [[1000%N; 1000%N]])).
  assert (Hsel : dp_selected df 2) by (split; [reflexivity | discriminate]).
  assert (Hm : lower (dp_mechanism df) = "ddgauss") by reflexivity.
  assert (Hrun : r = (fst r, inr (fst (returned r), snd (returned r))))
    by (vm_compute; reflexivity).
  destruct (ddgauss_stage_order sample_env sample_compression df
              1000 100 10 [[1000%N; 1000%N]] 2 _ _ _ Hsel Hm Hrun)
    as (clip & gamma & local_stddev & Hclip & Hacct & _ & Hst & _).
  injection Hclip as <-. injection Hacct as <- <-.
  split; [exact Hsel|]. split; [exact Hm|].
  split; [vm_compute; reflexivity|]. exact Hst.
Defined.

End DDGauss.

(** ** Failures of the construction *)

Section Failures.
Import Py Dimension FlUtils.

(** The baseline branch never looks at the compression flags. *)
Lemma gaussian_ignores_compression
    (env : collaborators) (cf cf' : CompressionFlags) (df : DpFlags)
    (Nc n R : Z) (tmpl : list shape) :
  lower (dp_mechanism df) = "gaussian" ->
  run (build_aggregator env cf df Nc n R tmpl)
  = run (build_aggregator env cf' df Nc n R tmpl).
Proof.
  intros Hm. unfold run, build_aggregator, private. rewrite Hm. reflexivity.
Qed.

(** C3, as stated, fails: bits, delta and the sampling rate are not
    validated.  With [bits = 0], [delta = 2] and 20 clients per round out of
    10, the baseline construction returns its aggregator, for no accountant
    does it fail on an assertion, and its outcome is the same for every
    bit width; the discrete construction is built over the range
    [[-1/2, 1/2)]. *)
Lemma unvalidated_bits_delta_sampling_rate :
  let cf := {| k_stddevs := None; beta := 1 # 2; num_bits := 0 |} in
  let run_with env mechanism :=
    run (build_aggregator env cf (sample_flags mechanism (Some 2%Q)) 10 20 10
           [[4%N; 4%N]]) in
  let r := run_with sample_env "gaussian" in
  let r' := run_with sample_env "ddgauss" in
  (snd r = inr (returned r) /\
   fst (returned r) = gaussian_fixed (3 # 2) 20 1 /\
   snd (returned r) !! "delta" = Some (VNum 2) /\
   snd (returned r) !! "sampling_rate" = Some (VNum (inject_Z 20 / inject_Z 10))) /\
  (forall env e, snd (run_with env "gaussian") = inl e -> ~ InvalidBudget e) /\
  (forall env bits,
     run (build_aggregator env {| k_stddevs := None; beta := 1 # 2; num_bits := bits |}
            (sample_flags "gaussian" (Some 2%Q)) 10 20 10 [[4%N; 4%N]])
     = run_with env "gaussian") /\
  (snd r' = inr (returned r') /\
   In (ModularSum (- (1 # 2))%Q (1 # 2)%Q) (stages (fst (returned r'))) /\
   snd (returned r') !! "bits" = Some (VInt 0)).
Proof.
  cbv zeta. split; [|split; [|split]].
  - repeat split; vm_compute; reflexivity.
  - intros env e. unfold run.
    erewrite build_private by (split; [reflexivity | discriminate]).
    cbn [l2_norm_clip sample_flags].
    rewrite private_dispatch by (reflexivity || discriminate).
    cbv zeta. cbn [dp_mechanism sample_flags].
    change (lower "gaussian" =? "gaussian")%string with true. cbv iota.
    rewrite gaussian_run.
    destruct (get_gauss_noise_multiplier env _ _ _ _); cbn [snd];
      intros [= <-] [m Hm]; discriminate.
  - intros env bits. now apply gaussian_ignores_compression.
  - split; [vm_compute; reflexivity|]. split; [|vm_compute; reflexivity].
    vm_compute. auto.
Qed.

(** C3, amended: with a DP mechanism selected, build_aggregator fails on an
    assertion (InvalidBudget), before anything is logged, asked of the
    accountant or built, whenever [epsilon <= 0], clip is missing or
    [clip <= 0]. *)
Theorem invalid_budget_before_any_stage
    (env : collaborators) (cf : CompressionFlags) (df : DpFlags)
    (Nc n R : Z) (tmpl : list shape) (eps : Q)
    (Hsel : dp_selected df eps)
    (Hbad : (eps <= 0)%Q \/ l2_norm_clip df = None \/
            exists c, l2_norm_clip df = Some c /\ (c <= 0)%Q) :
  exists e, run (build_aggregator env cf df Nc n R tmpl) = ([], inl e) /\
            InvalidBudget e.
Proof.
  unfold run. rewrite (build_private _ _ _ _ _ _ _ _ Hsel).
  destruct (Qlt_le_dec 0 eps) as [He|He].
  - destruct Hbad as [Hbad | [Hbad | (c & Hbad & Hc)]].
    + exfalso. apply (Qlt_not_le _ _ He Hbad).
    + rewrite Hbad, private_clip_missing by exact He.
      eexists. split; [reflexivity|]. eexists. reflexivity.
    + rewrite Hbad, private_clip_nonpos by assumption.
      eexists. split; [reflexivity|]. eexists. reflexivity.
  - rewrite private_epsilon_nonpos by exact He.
    eexists. split; [reflexivity|]. eexists. reflexivity.
Qed.

Lemma invalid_budget_before_any_stage_witness :
  let df := {| l2_norm_clip := Some (-3)%Q; epsilon := Some 2%Q;
               delta := None; dp_mechanism := "ddgauss" |} in
  dp_selected df 2 /\
  ((2 <= 0)%Q \/ l2_norm_clip df = None \/
   exists c, l2_norm_clip df = Some c /\ (c <= 0)%Q) /\
  exists e, run (build_aggregator sample_env sample_compression df 1000 100 10
                   [[1000%N; 1000%N]]) = ([], inl e) /\ InvalidBudget e.
Proof.
  cbv zeta.
  assert (Hsel : dp_selected
            {| l2_norm_clip := Some (-3)%Q; epsilon := Some 2%Q;
               delta := None; dp_mechanism := "ddgauss" |} 2)
    by (split; [reflexivity | discriminate]).
  assert (Hbad : (2 <= 0)%Q \/ Some (-3)%Q = None \/
                 exists c, Some (-3)%Q = Some c /\ (c <= 0)%Q)
    by (right; right; exists (-3)%Q; split; [reflexivity | discriminate]).
  split; [exact Hsel|]. split; [exact Hbad|].
  exact (invalid_budget_before_any_stage sample_env sample_compression _
           1000 100 10 [[1000%N; 1000%N]] 2 Hsel Hbad).
Defined.

(** C4, as stated, fails: the mechanism string 'none' is not a known
    branch.  With positive epsilon and clip it raises UnsupportedMechanism
    like any other unknown string (no DP is selected by epsilon, not by the
    mechanism); and with no clients at all the division for the sampling
    rate fails before the mechanism is looked at. *)
Lemma mechanism_none_is_unsupported :
  snd (run (build_aggregator sample_env sample_compression
              (sample_flags "none" None) 1000 100 10 [[1000%N; 1000%N]]))
    = inl (ValueError "Unsupported mechanism: none") /\
  snd (run (build_aggregator sample_env sample_compression
              (sample_flags "no-such-mechanism" None) 0 100 10 [[1000%N; 1000%N]]))
    = inl ZeroDivisionError.
Proof. split; vm_compute; reflexivity. Qed.

(** C4, amended: with positive epsilon, positive clip and a non-zero number
    of clients, build_aggregator raises UnsupportedMechanism if and only if
    the lower-cased mechanism string is neither 'gaussian' nor 'ddgauss';
    the message is 'Unsupported mechanism: ' followed by the string as it
    was supplied, and nothing has been asked of the accountant or built. *)
Theorem unsupported_mechanism_iff
    (env : collaborators) (cf : CompressionFlags) (df : DpFlags)
    (Nc n R : Z) (tmpl : list shape) (eps c : Q)
    (Heps : epsilon df = Some eps) (Hpos : (0 < eps)%Q)
    (Hclip : l2_norm_clip df = Some c) (Hc : (0 < c)%Q)
    (HN : Nc <> 0) :
  let r := run (build_aggregator env cf df Nc n R tmpl) in
  let known := lower (dp_mechanism df) = "gaussian" \/
               lower (dp_mechanism df) = "ddgauss" in
  ((exists e, snd r = inl e /\ UnsupportedMechanism e) <-> ~ known) /\
  (~ known ->
   snd r = inl (ValueError ("Unsupported mechanism: " +:+ dp_mechanism df)) /\
   calls (fst r) = [] /\ built (fst r) = []).
Proof.
  cbv zeta. unfold run.
  assert (Hsel : dp_selected df eps).
  { split; [exact Heps|]. intros E. rewrite E in Hpos. discriminate. }
  rewrite (build_private _ _ _ _ _ _ _ _ Hsel), Hclip.
  rewrite private_dispatch by assumption. cbv zeta.
  destruct (String.eqb_spec (lower (dp_mechanism df)) "gaussian") as [Hg|Hg].
  - split; [|tauto]. split; [|tauto].
    intros (e & He & msg & ->). exfalso. revert He. rewrite gaussian_run.
    destruct (get_gauss_noise_multiplier env _ _ _ _); discriminate.
  - destruct (String.eqb_spec (lower (dp_mechanism df)) "ddgauss") as [Hd|Hd].
    + split; [|tauto]. split; [|tauto].
      intros (e & He & msg & ->). exfalso.
      destruct (ddgauss _ _ _ _ _ _ _ _ _ _ _ _ _) as [tr' [e|x]] eqn:E;
        [|discriminate].
      cbn [snd] in He. injection He as ->.
      destruct (ddgauss_failure _ _ _ _ _ _ _ _ _ _ _ _ _ _ _ E)
        as [?|[? ?]]; discriminate.
    + split; [|intros _; repeat split].
      split; [tauto|]. intros _. eexists. split; [reflexivity|].
      eexists. reflexivity.
Qed.

Lemma unsupported_mechanism_iff_witness :
  let df := sample_flags "Laplace" None in
  let r := run (build_aggregator sample_env sample_compression df 1000 100 10
                  [[1000%N; 1000%N]]) in
  let known := lower (dp_mechanism df) = "gaussian" \/
               lower (dp_mechanism df) = "ddgauss" in
  epsilon df = Some 2%Q /\ (0 < 2)%Q /\ l2_norm_clip df = Some 1%Q /\
  (0 < 1)%Q /\ 1000 <> 0 /\ ~ known /\
  snd r = inl (ValueError "Unsupported mechanism: Laplace") /\
  ((exists e, snd r = inl e /\ UnsupportedMechanism e) <-> ~ known).
Proof.
  cbv zeta.
  assert (Hk : ~ (lower (dp_mechanism (sample_flags "Laplace" None)) = "gaussian" \/
                  lower (dp_mechanism (sample_flags "Laplace" None)) = "ddgauss"))
    by (intros [E|E]; discriminate E).
  assert (HN : 1000 <> 0) by discriminate.
  split; [reflexivity|]. split; [reflexivity|]. split; [reflexivity|].
  split; [reflexivity|]. split; [exact HN|]. split; [exact Hk|].
  pose proof (unsupported_mechanism_iff sample_env sample_compression
                (sample_flags "Laplace" None) 1000 100 10 [[1000%N; 1000%N]]
                2 1 eq_refl eq_refl eq_refl eq_refl HN) as [Hiff Hmsg].
  split; [exact (proj1 (Hmsg Hk)) | exact Hiff].
Defined.

End Failures.

(** ** The default for delta *)

Section Delta.
Import Py Dimension FlUtils.

Variable env : collaborators.
Variable cf : CompressionFlags.
Variables n R : Z.
Variable tmpl : list shape.

Lemma delta_default (d : option Q) (Nc : Z) :
  d = None \/ (exists q, d = Some q /\ (q == 0)%Q) ->
  delta_or_default d Nc = (1 / inject_Z Nc)%Q.
Proof.
  intros H. apply truthy_falsy in H. unfold falsy in H. unfold delta_or_default.
  destruct d as [q|]; [|reflexivity].
  now destruct (truthy q).
Qed.

(** The first thing the discrete branch does is to ask the accountant. *)
Lemma ddgauss_first_call (p : dict) (m : string) (eps d c q : Q) (dim : N)
    (tr : list event) :
  exists rest r,
    ddgauss env cf n R tmpl p m eps d c q dim tr =
    (tr ++ Called (ddgauss_params_call q eps c (num_bits cf) n (pad_dim dim) d
                     (beta cf) R (k_or_default (k_stddevs cf))) :: rest, r).
Proof.
  unfold ddgauss, k_or_default. py_red.
  repeat py_case; rewrite <- ?app_assoc; cbn [app]; do 2 eexists; reflexivity.
Qed.

(** The discrete branch returns as soon as the accountant returns a
    non-zero gamma and a non-zero rounded bound. *)
Lemma ddgauss_returns (p : dict) (m : string) (eps d c q : Q) (dim : N)
    (tr : list event) (gamma local_stddev bound : Q) :
  (0 < c)%Q -> ~ (gamma == 0)%Q -> ~ (bound == 0)%Q ->
  ddgauss_params env q eps c (num_bits cf) n (pad_dim dim) d (beta cf) R
    (k_or_default (k_stddevs cf)) = inr (gamma, local_stddev) ->
  rounded_l2_norm_bound env (c * (1 / gamma))%Q (beta cf) (pad_dim dim)
    = inr bound ->
  exists tr' agg params,
    ddgauss env cf n R tmpl p m eps d c q dim tr = (tr', inr (agg, params)).
Proof.
  intros Hc Hg Hb Hacct Hround.
  assert (Hs : ~ (1 / gamma == 0)%Q).
  { intros E. apply Hg. rewrite <- (Qinv_involutive gamma).
    unfold Qdiv in E. rewrite Qmult_1_l in E. rewrite E. reflexivity. }
  assert (Hi : ~ (bound / (1 / gamma) == 0)%Q).
  { intros E. apply Hb.
    assert (Hbe : (bound == bound / (1 / gamma) * (1 / gamma))%Q)
      by (field; try split; first [exact Hg | discriminate]).
    rewrite Hbe, E. ring. }
  assert (Hc0 : ~ (c == 0)%Q) by (intros E; rewrite E in Hc; discriminate).
  apply Qeq_bool_false in Hg, Hs, Hi, Hc0.
  unfold ddgauss, k_or_default in *. py_red.
  destruct (k_stddevs cf) as [k|]; [destruct (truthy k)|];
    cbv beta iota zeta; rewrite Hacct; cbv beta iota zeta; cbn [fst snd];
    rewrite Hg, Hc0; cbv beta iota zeta; rewrite Hround; cbv beta iota zeta;
    rewrite Hs, Hi; cbv beta iota zeta; do 3 eexists; reflexivity.
Qed.

Variable df : DpFlags.
Variable Nc : Z.

(** C10: on a DP branch (the assertions passed, a known mechanism), a delta
    that is [None] or [0] is replaced by [1 / num_clients] and not rejected:
    that value is the delta of the first call to the accountant, the
    construction does not fail on an assertion, the params record it returns
    holds that value under 'delta', and it does return once the accountant
    has answered. *)
Theorem delta_defaults_to_one_over_num_clients
    (eps c : Q)
    (Heps : epsilon df = Some eps) (Hpos : (0 < eps)%Q)
    (Hclip : l2_norm_clip df = Some c) (Hc : (0 < c)%Q)
    (HN : Nc <> 0)
    (Hm : lower (dp_mechanism df) = "gaussian" \/
          lower (dp_mechanism df) = "ddgauss")
    (Hd : delta df = None \/ exists d, delta df = Some d /\ (d == 0)%Q) :
  let r := run (build_aggregator env cf df Nc n R tmpl) in
  let delta := (1 / inject_Z Nc)%Q in
  let q := (inject_Z n / inject_Z Nc)%Q in
  let bits := num_bits cf in
  let padded_dim := pad_dim (get_total_dim tmpl) in
  let k := k_or_default (k_stddevs cf) in
  head (calls (fst r)) =
    Some (if String.eqb (lower (dp_mechanism df)) "gaussian"
          then get_gauss_noise_multiplier_call eps delta q R
          else ddgauss_params_call q eps c bits n padded_dim delta (beta cf) R k) /\
  (forall e, snd r = inl e -> ~ InvalidBudget e) /\
  (forall agg params,
     snd r = inr (agg, params) -> params !! "delta" = Some (VNum delta)) /\
  (lower (dp_mechanism df) = "gaussian" ->
   forall noise_mult,
     get_gauss_noise_multiplier env eps delta q R = inr noise_mult ->
     exists agg params, snd r = inr (agg, params)) /\
  (lower (dp_mechanism df) = "ddgauss" ->
   forall gamma local_stddev bound,
     ~ (gamma == 0)%Q -> ~ (bound == 0)%Q ->
     ddgauss_params env q eps c bits n padded_dim delta (beta cf) R k
       = inr (gamma, local_stddev) ->
     rounded_l2_norm_bound env (c * (1 / gamma))%Q (beta cf) padded_dim
       = inr bound ->
     exists agg params, snd r = inr (agg, params)).
Proof.
  cbv zeta. unfold run.
  assert (Hsel : dp_selected df eps).
  { split; [exact Heps|]. intros E. rewrite E in Hpos. discriminate. }
  rewrite (build_private _ _ _ _ _ _ _ _ Hsel), Hclip.
  rewrite private_dispatch by assumption. cbv zeta.
  rewrite (delta_default _ _ Hd).
  destruct Hm as [Hg|Hg]; rewrite Hg.
  - change ("gaussian" =? "gaussian")%string with true. cbv iota.
    rewrite gaussian_run. cbv zeta.
    destruct (get_gauss_noise_multiplier env _ _ _ _) as [what|z] eqn:E;
      cbn [fst snd].
    + split; [reflexivity|]. split; [intros e [= <-] [m Hm]; discriminate|].
      split; [discriminate|]. split; [discriminate|]. discriminate.
    + split; [reflexivity|]. split; [discriminate|].
      split; [intros agg params [= <- <-]; reflexivity|].
      split; [|discriminate]. intros _ z' _. do 2 eexists. reflexivity.
  - change ("ddgauss" =? "gaussian")%string with false.
    change ("ddgauss" =? "ddgauss")%string with true. cbv iota.
    match goal with
    | |- context [ddgauss env cf n R tmpl ?p ?m ?e ?d ?c ?q ?dim ?tr] =>
        set (run_dd := ddgauss env cf n R tmpl p m e d c q dim tr);
        destruct (ddgauss_first_call p m e d c q dim tr) as (rest & res & Hfirst);
        pose proof (ddgauss_failure env cf n R tmpl p m e d c q dim tr) as Hfail;
        pose proof (ddgauss_success env cf n R tmpl p m e d c q dim tr) as Hok;
        pose proof (ddgauss_returns p m e d c q dim tr) as Hret
    end.
    fold run_dd in Hfirst, Hfail, Hok, Hret.
    split; [rewrite Hfirst; reflexivity|].
    split.
    { intros e He [msg ->]. destruct run_dd as [tr' res'].
      cbn [snd] in He. subst res'.
      destruct (Hfail _ _ eq_refl) as [?|[? ?]]; discriminate. }
    split.
    { intros agg params He. destruct run_dd as [tr' res'].
      cbn [snd] in He. subst res'.
      destruct (Hok _ _ _ eq_refl) as (? & ? & ? & _ & _ & _ & _ & _ & _ & -> & _).
      unfold update. rewrite lookup_union_r by reflexivity. reflexivity. }
    split; [discriminate|].
    intros _ gamma local_stddev bound Hgamma Hbound Hacct Hround.
    destruct (Hret gamma local_stddev bound Hc Hgamma Hbound Hacct Hround)
      as (tr' & agg & params & ->).
    do 2 eexists. reflexivity.
Qed.

End Delta.

Section DeltaExample.
Import Py Dimension FlUtils.

Lemma delta_defaults_to_one_over_num_clients_witness :
  let df := sample_flags "ddgauss" (Some 0%Q) in
  let r := run (build_aggregator sample_env sample_compression df 1000 100 10
                  [[1000%N; 1000%N]]) in
  (epsilon df = Some 2%Q /\ (0 < 2)%Q /\ l2_norm_clip df = Some 1%Q /\ (0 < 1)%Q /\
   1000 <> 0 /\ lower (dp_mechanism df) = "ddgauss" /\
   exists d, delta df = Some d /\ (d == 0)%Q) /\
  head (calls (fst r)) =
    Some (ddgauss_params_call (inject_Z 100 / inject_Z 1000) 2 1 16 100 1048576
            (1 / inject_Z 1000) (1 # 2) 10 4) /\
  snd r = inr (returned r) /\
  snd (returned r) !! "delta" = Some (VNum (1 / inject_Z 1000)).
Proof.
  cbv zeta.
  set (df := sample_flags "ddgauss" (Some 0%Q)).
  assert (HN : 1000 <> 0) by discriminate.
  assert (Hm : lower (dp_mechanism df) = "gaussian" \/
               lower (dp_mechanism df) = "ddgauss") by (right; reflexivity).
  assert (Hd : delta df = None \/ exists d, delta df = Some d /\ (d == 0)%Q)
    by (right; exists 0%Q; split; reflexivity).
  pose proof (delta_defaults_to_one_over_num_clients sample_env
                sample_compression 100 10 [[1000%N; 1000%N]] df 1000 2 1
                eq_refl eq_refl eq_refl eq_refl HN Hm Hd)
    as (Hcall & _ & Hrec & _ & _).
  split.
  { repeat (split; [reflexivity || exact HN|]).
    exists 0%Q. split; reflexivity. }
  split; [exact Hcall|].
  assert (Hr : snd (run (build_aggregator sample_env sample_compression df
                           1000 100 10 [[1000%N; 1000%N]]))
               = inr (fst (returned (run (build_aggregator sample_env
                        sample_compression df 1000 100 10 [[1000%N; 1000%N]]))),
                      snd (returned (run (build_aggregator sample_env
                        sample_compression df 1000 100 10 [[1000%N; 1000%N]])))))
    by (vm_compute; reflexivity).
  split; [vm_compute; reflexivity|].
  exact (Hrec _ _ Hr).
Defined.

End DeltaExample.

(** ** Modular reduction *)

Section Modular.
Import ModularClipping.

Lemma modular_clip_range (lo hi v : Z) :
  lo < hi -> lo <= modular_clip lo hi v < hi.
Proof.
  intros H. unfold modular_clip.
  pose proof (Z.mod_pos_bound (v - lo) (hi - lo)). lia.
Qed.

Lemma modular_clip_in_range (lo hi v : Z) :
  lo <= v < hi -> modular_clip lo hi v = v.
Proof.
  intros H. unfold modular_clip. rewrite Z.mod_small; lia.
Qed.

Lemma modular_clip_period (lo hi v k : Z) :
  modular_clip lo hi (v + k * (hi - lo)) = modular_clip lo hi v.
Proof.
  unfold modular_clip.
  replace (v + k * (hi - lo) - lo) with (v - lo + k * (hi - lo)) by lia.
  destruct (Z.eq_dec (hi - lo) 0) as [E|E].
  - rewrite E, Z.mul_0_r, Z.add_0_r. reflexivity.
  - now rewrite Z.mod_add.
Qed.

(** The floored modulus wraps a value below the range back into it; the
    truncating remainder leaves it outside. *)
Lemma floored_wraps_negative :
  modular_clip (-4) 4 (-5) = 3 /\ truncating_clip (-4) 4 (-5) = -5.
Proof. split; reflexivity. Qed.

(** C8: for [lo < hi] the reduction [((v - lo) mod (hi - lo)) + lo], with
    the floored modulus, lands in [[lo, hi)], leaves every value of
    [[lo, hi)] unchanged, hence is idempotent, and has period [hi - lo]. *)
Theorem modular_clip_idempotent_periodic (lo hi : Z) (Hlt : lo < hi) :
  (forall v, lo <= modular_clip lo hi v < hi) /\
  (forall v, lo <= v < hi -> modular_clip lo hi v = v) /\
  (forall v, modular_clip lo hi (modular_clip lo hi v) = modular_clip lo hi v) /\
  (forall v k, modular_clip lo hi (v + k * (hi - lo)) = modular_clip lo hi v).
Proof.
  split; [|split; [|split]].
  - intros v. now apply modular_clip_range.
  - intros v. apply modular_clip_in_range.
  - intros v. apply modular_clip_in_range. now apply modular_clip_range.
  - intros v k. apply modular_clip_period.
Qed.

Lemma modular_clip_idempotent_periodic_witness :
  -32768 < 32768 /\
  modular_clip (-32768) 32768 40000 = -25536 /\
  modular_clip (-32768) 32768 (-25536) = -25536 /\
  modular_clip (-32768) 32768 (40000 + (-7) * (32768 - -32768))
    = modular_clip (-32768) 32768 40000 /\
  modular_clip (-32768) 32768 (modular_clip (-32768) 32768 (-40000))
    = modular_clip (-32768) 32768 (-40000).
Proof.
  assert (H : -32768 < 32768) by reflexivity.
  pose proof (modular_clip_idempotent_periodic (-32768) 32768 H)
    as (_ & Hid & Hidem & Hper).
  split; [exact H|]. split; [reflexivity|].
  split; [apply Hid; split; [discriminate | reflexivity]|].
  split; [apply Hper | apply Hidem].
Defined.

End Modular.

(** * Further properties of the code *)

(** ** The padded dimension up to [2^49] *)

Section Padding.
Import Dimension.
Local Open Scope N_scope.

(** X4: for [1 <= dim <= 2^49], [pad_dim dim] is the smallest power of two
    that is at least [dim]: it is a power of two, it is at least [dim], and
    no power of two that is at least [dim] is below it. *)
Theorem pad_dim_smallest (dim : N) (Hdim : 1 <= dim) (Hmax : dim <= 2 ^ 49) :
  is_pow2 (pad_dim dim) /\
  dim <= pad_dim dim /\
  forall k : N, dim <= 2 ^ k -> pad_dim dim <= 2 ^ k.
Proof.
  split; [|split].
  - exists (N.log2_up dim). now apply pad_dim_exact.
  - now apply pad_dim_ge.
  - intros k Hk. now apply pad_dim_least.
Qed.

Lemma pad_dim_smallest_witness :
  1 <= 1000000 /\ 1000000 <= 2 ^ 49 /\
  is_pow2 (pad_dim 1000000) /\ 1000000 <= pad_dim 1000000 /\
  (1000000 <= 2 ^ 20 -> pad_dim 1000000 <= 2 ^ 20) /\
  (1000000 <= 2 ^ 23 -> pad_dim 1000000 <= 2 ^ 23).
Proof.
  assert (H1 : 1 <= 1000000) by discriminate.
  assert (Hmax : 1000000 <= 2 ^ 49) by discriminate.
  destruct (pad_dim_smallest 1000000 H1 Hmax) as (Hp & Hge & Hleast).
  split; [exact H1|]. split; [exact Hmax|].
  split; [exact Hp|]. split; [exact Hge|].
  split; [exact (Hleast 20) | exact (Hleast 23)].
Defined.

(** X5: up to [2^49], zero included, padding a padded dimension changes
    nothing. *)
Theorem pad_dim_idempotent (dim : N) (Hmax : dim <= 2 ^ 49) :
  pad_dim (pad_dim dim) = pad_dim dim.
Proof.
  destruct (N.eq_dec dim 0) as [->|Hne]; [reflexivity|].
  assert (H1 : 1 <= dim) by lia.
  apply pad_dim_fix.
  - apply pad_dim_least; [exact H1 | exact Hmax | exact Hmax].
  - exists (N.log2_up dim). now apply pad_dim_exact.
Qed.

Lemma pad_dim_idempotent_witness :
  1000000 <= 2 ^ 49 /\ pad_dim 1000000 = 1048576 /\
  pad_dim (pad_dim 1000000) = pad_dim 1000000.
Proof.
  assert (Hmax : 1000000 <= 2 ^ 49) by discriminate.
  split; [exact Hmax|]. split; [reflexivity|].
  exact (pad_dim_idempotent 1000000 Hmax).
Defined.

(** X6: up to [2^49] a larger dimension never pads to a smaller one. *)
Theorem pad_dim_monotone (a b : N) (Hab : a <= b) (Hmax : b <= 2 ^ 49) :
  pad_dim a <= pad_dim b.
Proof.
  destruct (N.eq_dec a 0) as [->|Ha]; [apply N.le_0_l|].
  rewrite !pad_dim_exact by lia.
  apply N.pow_le_mono_r; [lia|]. now apply N.log2_up_le_mono.
Qed.

Lemma pad_dim_monotone_witness :
  1000 <= 1025 /\ 1025 <= 2 ^ 49 /\
  pad_dim 1000 = 1024 /\ pad_dim 1025 = 2048 /\
  pad_dim 1000 <= pad_dim 1025.
Proof.
  assert (H : 1000 <= 1025) by discriminate.
  assert (Hmax : 1025 <= 2 ^ 49) by discriminate.
  split; [exact H|]. split; [exact Hmax|].
  split; [reflexivity|]. split; [reflexivity|].
  exact (pad_dim_monotone 1000 1025 H Hmax).
Defined.

End Padding.

(** ** More on build_aggregator *)

Section Construction.
Import Py Dimension FlUtils.

Lemma built_app (a b : list event) : built (a ++ b) = built a ++ built b.
Proof. unfold built. apply omap_app. Qed.

Lemma calls_app (a b : list event) : calls (a ++ b) = calls a ++ calls b.
Proof. unfold calls. apply omap_app. Qed.

(** A failing discrete branch has built nothing. *)
Lemma ddgauss_failure_builds_nothing
    (env : collaborators) (cf : CompressionFlags) (n R : Z) (tmpl : list shape)
    (p : dict) (m : string) (eps d c q : Q) (dim : N)
    (tr tr' : list event) (e : exn) :
  ddgauss env cf n R tmpl p m eps d c q dim tr = (tr', inl e) ->
  built tr' = built tr.
Proof.
  intros H. unfold ddgauss in H. py_red_in H.
  repeat py_case_in H; injection H as <- <-;
    rewrite ?built_app; cbn; rewrite ?app_nil_r; reflexivity.
Qed.

Variable env : collaborators.
Variable cf : CompressionFlags.
Variable df : DpFlags.
Variables Nc n R : Z.
Variable tmpl : list shape.

Abbreviation the_run := (run (build_aggregator env cf df Nc n R tmpl)).
Abbreviation the_shared eps c :=
  (shared_params Nc n R eps (delta_or_default (delta df) Nc) c
     (get_total_dim tmpl) (inject_Z n / inject_Z Nc)%Q (lower (dp_mechanism df))).

Lemma positive_is_selected (eps : Q) :
  epsilon df = Some eps -> (0 < eps)%Q -> dp_selected df eps.
Proof.
  intros He Hpos. split; [exact He|]. intros E. rewrite E in Hpos. discriminate.
Qed.

(** The run past the assertions and the sampling rate. *)
Lemma run_dispatch (eps c : Q) :
  epsilon df = Some eps -> (0 < eps)%Q ->
  l2_norm_clip df = Some c -> (0 < c)%Q -> Nc <> 0 ->
  the_run =
  let tr := [Logged "Shared DP Parameters:" []; LoggedDict (the_shared eps c)] in
  if String.eqb (lower (dp_mechanism df)) "gaussian" then
    gaussian env n R (the_shared eps c) eps (delta_or_default (delta df) Nc) c
      (inject_Z n / inject_Z Nc)%Q tr
  else if String.eqb (lower (dp_mechanism df)) "ddgauss" then
    ddgauss env cf n R tmpl (the_shared eps c) (lower (dp_mechanism df)) eps
      (delta_or_default (delta df) Nc) c (inject_Z n / inject_Z Nc)%Q
      (get_total_dim tmpl) tr
  else (tr, inl (ValueError ("Unsupported mechanism: " +:+ dp_mechanism df))).
Proof.
  intros He Hpos Hclip Hc HN. unfold run.
  rewrite (build_private _ _ _ _ _ _ _ _ (positive_is_selected _ He Hpos)), Hclip.
  now rewrite private_dispatch by assumption.
Qed.

(** X7: a baseline (gaussian) construction whose accountant answers returns
    the fixed-Gaussian DP factory alone, with no clipping or mean stage
    around it, after a single call to the accountant; the params record has
    the nine shared entries and 'noise_mult', the mechanism in lower case. *)
Theorem gaussian_construction
    (eps c noise_mult : Q)
    (Heps : epsilon df = Some eps) (Hpos : (0 < eps)%Q)
    (Hclip : l2_norm_clip df = Some c) (Hc : (0 < c)%Q)
    (HN : Nc <> 0)
    (Hm : lower (dp_mechanism df) = "gaussian")
    (Hacct : get_gauss_noise_multiplier env eps (delta_or_default (delta df) Nc)
               (inject_Z n / inject_Z Nc)%Q R = inr noise_mult) :
  exists params,
    snd the_run = inr (gaussian_fixed noise_mult n c, params) /\
    built (fst the_run) = [gaussian_fixed noise_mult n c] /\
    calls (fst the_run) =
      [get_gauss_noise_multiplier_call eps (delta_or_default (delta df) Nc)
         (inject_Z n / inject_Z Nc)%Q R] /\
    params !! "noise_mult" = Some (VNum noise_mult) /\
    params !! "mechanism" = Some (VStr "gaussian") /\
    params !! "clip" = Some (VNum c) /\
    size params = 10%nat.
Proof.
  rewrite (run_dispatch eps c) by assumption. cbv zeta. rewrite Hm.
  change ("gaussian" =? "gaussian")%string with true. cbv iota.
  rewrite gaussian_run, Hacct. cbn [fst snd].
  eexists. split; [reflexivity|].
  repeat split; reflexivity.
Qed.

(** X8: on the DP path, when build_aggregator raises one of its own
    errors (a failed assertion, or the unsupported-mechanism error) or an
    exception of the accountant, no aggregation stage has been constructed:
    both assertions, every call to the accountant and the choice of the
    mechanism come before the first factory. *)
Theorem dp_failure_builds_nothing
    (eps : Q) (e : exn)
    (Hsel : dp_selected df eps)
    (Hfail : snd (run (build_aggregator env cf df Nc n R tmpl)) = inl e)
    (Hown : (exists m, e = AssertionError m) \/
            e = ValueError ("Unsupported mechanism: " +:+ dp_mechanism df) \/
            (exists what, e = Propagated what)) :
  built (fst the_run) = [].
Proof.
  clear Hown. revert Hfail. unfold run.
  rewrite (build_private _ _ _ _ _ _ _ _ Hsel).
  destruct (Qlt_le_dec 0 eps) as [He|He];
    [|now rewrite private_epsilon_nonpos by exact He].
  destruct (l2_norm_clip df) as [c|];
    [|now rewrite private_clip_missing by exact He].
  destruct (Qlt_le_dec 0 c) as [Hc|Hc];
    [|now rewrite private_clip_nonpos by assumption].
  destruct (Z.eq_dec Nc 0) as [HN|HN];
    [now rewrite private_no_clients by assumption|].
  rewrite private_dispatch by assumption. cbv zeta.
  destruct (String.eqb _ "gaussian").
  - rewrite gaussian_run.
    destruct (get_gauss_noise_multiplier env _ _ _ _); [reflexivity|discriminate].
  - destruct (String.eqb _ "ddgauss"); [|reflexivity].
    destruct (ddgauss _ _ _ _ _ _ _ _ _ _ _ _ _) as [tr' [e'|x]] eqn:E;
      [|discriminate].
    intros _. cbn [fst].
    now rewrite (ddgauss_failure_builds_nothing _ _ _ _ _ _ _ _ _ _ _ _ _ _ _ E).
Qed.

(** X9: what the accountant raises on its first call is what
    build_aggregator raises, after that one call and with nothing built. *)
Theorem accountant_failure_is_propagated
    (eps c : Q) (what : string)
    (Heps : epsilon df = Some eps) (Hpos : (0 < eps)%Q)
    (Hclip : l2_norm_clip df = Some c) (Hc : (0 < c)%Q)
    (HN : Nc <> 0)
    (Hfail :
       (lower (dp_mechanism df) = "gaussian" /\
        get_gauss_noise_multiplier env eps (delta_or_default (delta df) Nc)
          (inject_Z n / inject_Z Nc)%Q R = inl what) \/
       (lower (dp_mechanism df) = "ddgauss" /\
        ddgauss_params env (inject_Z n / inject_Z Nc)%Q eps c (num_bits cf) n
          (pad_dim (get_total_dim tmpl)) (delta_or_default (delta df) Nc)
          (beta cf) R (k_or_default (k_stddevs cf)) = inl what)) :
  snd the_run = inl (Propagated what) /\
  length (calls (fst the_run)) = 1%nat /\
  built (fst the_run) = [].
Proof.
  rewrite (run_dispatch eps c) by assumption. cbv zeta.
  destruct Hfail as [[Hm Hacct]|[Hm Hacct]]; rewrite Hm.
  - change ("gaussian" =? "gaussian")%string with true. cbv iota.
    rewrite gaussian_run, Hacct. repeat split; reflexivity.
  - change ("ddgauss" =? "gaussian")%string with false.
    change ("ddgauss" =? "ddgauss")%string with true. cbv iota.
    unfold ddgauss, k_or_default in *. py_red.
    destruct (k_stddevs cf) as [k|]; [destruct (truthy k)|];
      cbv beta iota zeta; rewrite Hacct; repeat split; reflexivity.
Qed.

(** X10: epsilon is checked before clip, and each assertion reports the
    value it found: a non-positive epsilon fails on epsilon whatever clip
    is; with a positive epsilon a missing or non-positive clip fails on
    clip. *)
Theorem epsilon_checked_before_clip
    (eps : Q) (Hsel : dp_selected df eps) :
  ((eps <= 0)%Q ->
   the_run = ([], inl (AssertionError (EpsilonShouldBePositive eps)))) /\
  ((0 < eps)%Q ->
   (l2_norm_clip df = None \/ exists c, l2_norm_clip df = Some c /\ (c <= 0)%Q) ->
   the_run = ([], inl (AssertionError (ClipMustBePositive (l2_norm_clip df))))).
Proof.
  unfold run. rewrite (build_private _ _ _ _ _ _ _ _ Hsel). split.
  - intros He. now rewrite private_epsilon_nonpos.
  - intros He [Hn|(c & Hs & Hc)].
    + rewrite Hn. now rewrite private_clip_missing.
    + rewrite Hs. now rewrite private_clip_nonpos.
Qed.

(** X11: with a valid budget and no clients at all, the division for the
    sampling rate fails, whatever the mechanism string is, before anything
    is logged, asked or built. *)
Theorem no_clients_is_zero_division
    (eps c : Q)
    (Heps : epsilon df = Some eps) (Hpos : (0 < eps)%Q)
    (Hclip : l2_norm_clip df = Some c) (Hc : (0 < c)%Q)
    (HN : Nc = 0) :
  run (build_aggregator env cf df Nc n R tmpl) = ([], inl ZeroDivisionError).
Proof.
  unfold run.
  rewrite (build_private _ _ _ _ _ _ _ _ (positive_is_selected _ Heps Hpos)), Hclip.
  now rewrite private_no_clients.
Qed.

(** X12: a DP construction that returns had a positive epsilon, a positive
    clip, a non-zero number of clients and a known mechanism, and its params
    record holds them: epsilon, clip, the sampling rate
    [num_clients_per_round / num_clients] and the mechanism in lower case. *)
Theorem returned_dp_construction_has_valid_budget
    (eps : Q) (agg : factory) (params : dict)
    (Hsel : dp_selected df eps)
    (Hret : snd the_run = inr (agg, params)) :
  (0 < eps)%Q /\
  exists c,
    l2_norm_clip df = Some c /\ (0 < c)%Q /\ Nc <> 0 /\
    (lower (dp_mechanism df) = "gaussian" \/ lower (dp_mechanism df) = "ddgauss") /\
    params !! "epsilon" = Some (VNum eps) /\
    params !! "clip" = Some (VNum c) /\
    params !! "sampling_rate" = Some (VNum (inject_Z n / inject_Z Nc)) /\
    params !! "mechanism" = Some (VStr (lower (dp_mechanism df))).
Proof.
  assert (Hrun : exists tr, the_run = (tr, inr (agg, params))).
  { destruct the_run as [tr res]. cbn [snd] in Hret. subst res. now exists tr. }
  destruct Hrun as [tr Hrun]. clear Hret. unfold run in Hrun.
  rewrite (build_private _ _ _ _ _ _ _ _ Hsel) in Hrun.
  destruct (private_success_guards _ _ _ _ _ _ _ _ _ _ _ _ Hrun)
    as (He & c & Hclip & Hc & HN).
  split; [exact He|]. exists c.
  rewrite Hclip, private_dispatch in Hrun by assumption. cbv zeta in Hrun.
  split; [exact Hclip|]. split; [exact Hc|]. split; [exact HN|].
  destruct (String.eqb_spec (lower (dp_mechanism df)) "gaussian") as [Hg|Hg].
  - split; [now left|]. rewrite gaussian_run in Hrun.
    destruct (get_gauss_noise_multiplier env _ _ _ _); [discriminate|].
    injection Hrun as _ _ <-. rewrite Hg. repeat split; reflexivity.
  - destruct (String.eqb_spec (lower (dp_mechanism df)) "ddgauss") as [Hd|Hd];
      [|discriminate].
    split; [now right|].
    destruct (ddgauss_success _ _ _ _ _ _ _ _ _ _ _ _ _ _ _ _ Hrun)
      as (? & ? & ? & _ & _ & _ & _ & _ & _ & -> & _).
    unfold update.
    split; [rewrite lookup_union_r by reflexivity; reflexivity|].
    split; [rewrite lookup_union_r by reflexivity; reflexivity|].
    split; [rewrite lookup_union_r by reflexivity; reflexivity|].
    apply lookup_union_Some_l. reflexivity.
Qed.

End Construction.

Section ConstructionExamples.
Import Py Dimension FlUtils.

Abbreviation sample_tmpl := [[1000%N; 1000%N]].
Abbreviation sample_run mechanism delta Nc :=
  (run (build_aggregator sample_env sample_compression
          (sample_flags mechanism delta) Nc 100 10 sample_tmpl)).

Lemma gaussian_construction_witness :
  let r := sample_run "Gaussian" None 1000 in
  lower "Gaussian" = "gaussian" /\
  get_gauss_noise_multiplier sample_env 2 (1 / inject_Z 1000)
    (inject_Z 100 / inject_Z 1000) 10 = inr (3 # 2) /\
  exists params,
    snd r = inr (gaussian_fixed (3 # 2) 100 1, params) /\
    built (fst r) = [gaussian_fixed (3 # 2) 100 1] /\
    size params = 10%nat.
Proof.
  cbv zeta.
  assert (HN : 1000 <> 0) by discriminate.
  destruct (gaussian_construction sample_env sample_compression
              (sample_flags "Gaussian" None) 1000 100 10 sample_tmpl
              2 1 (3 # 2) eq_refl eq_refl eq_refl eq_refl HN eq_refl eq_refl)
    as (params & Hret & Hbuilt & _ & _ & _ & _ & Hsize).
  split; [reflexivity|]. split; [reflexivity|].
  exists params. split; [exact Hret|]. split; [exact Hbuilt | exact Hsize].
Defined.

(** An accountant whose second answer, the inflated norm bound, fails. *)
Lemma dp_failure_builds_nothing_witness :
  let failing := {|
    get_gauss_noise_multiplier := get_gauss_noise_multiplier sample_env;
    ddgauss_params := ddgauss_params sample_env;
    rounded_l2_norm_bound := fun _ _ _ => inl "overflow";
    np_sqrt := np_sqrt sample_env |} in
  let r := run (build_aggregator failing sample_compression
                  (sample_flags "ddgauss" None) 1000 100 10 sample_tmpl) in
  dp_selected (sample_flags "ddgauss" None) 2 /\
  snd r = inl (Propagated "overflow") /\ built (fst r) = [].
Proof.
  cbv zeta.
  set (failing := {|
    get_gauss_noise_multiplier := get_gauss_noise_multiplier sample_env;
    ddgauss_params := ddgauss_params sample_env;
    rounded_l2_norm_bound := fun _ _ _ => inl "overflow";
    np_sqrt := np_sqrt sample_env |}).
  assert (Hsel : dp_selected (sample_flags "ddgauss" None) 2)
    by (split; [reflexivity | discriminate]).
  assert (Hfail : snd (run (build_aggregator failing sample_compression
                              (sample_flags "ddgauss" None) 1000 100 10
                              sample_tmpl))
                  = inl (Propagated "overflow"))
    by (vm_compute; reflexivity).
  split; [exact Hsel|]. split; [exact Hfail|].
  exact (dp_failure_builds_nothing failing sample_compression
           (sample_flags "ddgauss" None) 1000 100 10 sample_tmpl 2 _ Hsel Hfail
           (or_intror (or_intror (ex_intro _ "overflow" eq_refl)))).
Defined.

(** An accountant that finds no noise multiplier for the budget. *)
Lemma accountant_failure_is_propagated_witness :
  let failing := {|
    get_gauss_noise_multiplier := fun _ _ _ _ => inl "infeasible";
    ddgauss_params := ddgauss_params sample_env;
    rounded_l2_norm_bound := rounded_l2_norm_bound sample_env;
    np_sqrt := np_sqrt sample_env |} in
  let r := run (build_aggregator failing sample_compression
                  (sample_flags "gaussian" None) 1000 100 10 sample_tmpl) in
  snd r = inl (Propagated "infeasible") /\
  length (calls (fst r)) = 1%nat /\ built (fst r) = [].
Proof.
  cbv zeta.
  assert (HN : 1000 <> 0) by discriminate.
  apply (accountant_failure_is_propagated _ sample_compression
           (sample_flags "gaussian" None) 1000 100 10 sample_tmpl
           2 1 "infeasible" eq_refl eq_refl eq_refl eq_refl HN).
  left. split; reflexivity.
Defined.

Lemma epsilon_checked_before_clip_witness :
  let df := {| l2_norm_clip := None; epsilon := Some (-2)%Q; delta := None;
               dp_mechanism := "ddgauss" |} in
  let df' := {| l2_norm_clip := Some (-1 # 2); epsilon := Some 2%Q;
                delta := None; dp_mechanism := "ddgauss" |} in
  dp_selected df (-2) /\ dp_selected df' 2 /\
  run (build_aggregator sample_env sample_compression df 1000 100 10 sample_tmpl)
    = ([], inl (AssertionError (EpsilonShouldBePositive (-2)))) /\
  run (build_aggregator sample_env sample_compression df' 1000 100 10 sample_tmpl)
    = ([], inl (AssertionError (ClipMustBePositive (Some (-1 # 2))))).
Proof.
  cbv zeta.
  set (df := {| l2_norm_clip := None; epsilon := Some (-2)%Q; delta := None;
                dp_mechanism := "ddgauss" |}).
  set (df' := {| l2_norm_clip := Some (-1 # 2); epsilon := Some 2%Q;
                 delta := None; dp_mechanism := "ddgauss" |}).
  assert (Hsel : dp_selected df (-2)) by (split; [reflexivity | discriminate]).
  assert (Hsel' : dp_selected df' 2) by (split; [reflexivity | discriminate]).
  split; [exact Hsel|]. split; [exact Hsel'|]. split.
  - apply (epsilon_checked_before_clip sample_env sample_compression df
             1000 100 10 sample_tmpl (-2) Hsel). discriminate.
  - apply (epsilon_checked_before_clip sample_env sample_compression df'
             1000 100 10 sample_tmpl 2 Hsel'); [reflexivity|].
    right. exists (-1 # 2). split; [reflexivity | discriminate].
Defined.

Lemma no_clients_is_zero_division_witness :
  sample_run "no-such-mechanism" None 0 = ([], inl ZeroDivisionError).
Proof.
  exact (no_clients_is_zero_division sample_env sample_compression
           (sample_flags "no-such-mechanism" None) 0 100 10 sample_tmpl
           2 1 eq_refl eq_refl eq_refl eq_refl eq_refl).
Defined.

(** With the stand-in accountant a ddgauss construction past the
    assertions returns. *)
Lemma sample_ddgauss_returns (cf : CompressionFlags) (df : DpFlags)
    (Nc n R : Z) (tmpl : list shape) (eps c : Q) :
  epsilon df = Some eps -> (0 < eps)%Q ->
  l2_norm_clip df = Some c -> (0 < c)%Q -> Nc <> 0 ->
  lower (dp_mechanism df) = "ddgauss" ->
  exists tr agg params,
    run (build_aggregator sample_env cf df Nc n R tmpl) = (tr, inr (agg, params)).
Proof.
  intros He Hpos Hclip Hc HN Hm.
  rewrite (run_dispatch sample_env cf df Nc n R tmpl eps c) by assumption.
  cbv zeta. rewrite Hm.
  change ("ddgauss" =? "gaussian")%string with false.
  change ("ddgauss" =? "ddgauss")%string with true. cbv iota.
  apply (ddgauss_returns sample_env cf n R tmpl _ _ _ _ _ _ _ _
           (1 # 8) (5 # 1) (c * (1 / (1 # 8)) + 1)%Q);
    [exact Hc | discriminate | | reflexivity | reflexivity].
  intros E.
  assert (H8 : (1 / (1 # 8) == 8)%Q) by reflexivity.
  rewrite H8 in E. lra.
Qed.

Lemma sample_gaussian_returns (cf : CompressionFlags) (df : DpFlags)
    (Nc n R : Z) (tmpl : list shape) (eps c : Q) :
  epsilon df = Some eps -> (0 < eps)%Q ->
  l2_norm_clip df = Some c -> (0 < c)%Q -> Nc <> 0 ->
  lower (dp_mechanism df) = "gaussian" ->
  exists tr params,
    run (build_aggregator sample_env cf df Nc n R tmpl)
    = (tr, inr (gaussian_fixed (3 # 2) n c, params)).
Proof.
  intros He Hpos Hclip Hc HN Hm.
  rewrite (run_dispatch sample_env cf df Nc n R tmpl eps c) by assumption.
  cbv zeta. rewrite Hm.
  change ("gaussian" =? "gaussian")%string with true. cbv iota.
  rewrite gaussian_run. cbn [get_gauss_noise_multiplier sample_env].
  do 2 eexists. reflexivity.
Qed.

Lemma returned_dp_construction_has_valid_budget_witness :
  let r := sample_run "DDGAUSS" None 1000 in
  dp_selected (sample_flags "DDGAUSS" None) 2 /\
  exists agg params,
    snd r = inr (agg, params) /\
    params !! "mechanism" = Some (VStr "ddgauss") /\
    params !! "sampling_rate" = Some (VNum (inject_Z 100 / inject_Z 1000)).
Proof.
  cbv zeta.
  assert (Hsel : dp_selected (sample_flags "DDGAUSS" None) 2)
    by (split; [reflexivity | discriminate]).
  assert (HN : 1000 <> 0) by discriminate.
  destruct (sample_ddgauss_returns sample_compression
              (sample_flags "DDGAUSS" None) 1000 100 10 sample_tmpl 2 1
              eq_refl eq_refl eq_refl eq_refl HN eq_refl)
    as (tr & agg & params & Hrun).
  assert (Hret : snd (sample_run "DDGAUSS" None 1000) = inr (agg, params))
    by (rewrite Hrun; reflexivity).
  destruct (returned_dp_construction_has_valid_budget sample_env
              sample_compression (sample_flags "DDGAUSS" None) 1000 100 10
              sample_tmpl 2 _ _ Hsel Hret)
    as (_ & c & _ & _ & _ & _ & _ & _ & Hq & Hmech).
  split; [exact Hsel|]. exists agg, params.
  split; [exact Hret|]. split; [exact Hmech | exact Hq].
Defined.

End ConstructionExamples.

(** ** How the flags reach the accountant and the record *)

Section Flags.
Import Py Dimension FlUtils.

Lemma k_default (k : option Q) :
  k = None \/ (exists q, k = Some q /\ (q == 0)%Q) -> k_or_default k = 4%Q.
Proof.
  intros H. apply truthy_falsy in H. unfold falsy in H. unfold k_or_default.
  destruct k as [q|]; [|reflexivity].
  now destruct (truthy q).
Qed.

Lemma delta_given (d : Q) (Nc : Z) :
  ~ (d == 0)%Q -> delta_or_default (Some d) Nc = d.
Proof.
  intros H. unfold delta_or_default, truthy.
  apply Qeq_bool_false in H. now rewrite H.
Qed.

(** X13: the mechanism is matched without regard to case: two known
    mechanism strings that agree once lower-cased give the same outcome, the
    same log and the same params record. *)
Theorem mechanism_case_insensitive
    (env : collaborators) (cf : CompressionFlags)
    (clip eps delta : option Q) (m m' : string)
    (Nc n R : Z) (tmpl : list shape)
    (Hlow : lower m = lower m')
    (Hknown : lower m = "gaussian" \/ lower m = "ddgauss") :
  run (build_aggregator env cf
         {| l2_norm_clip := clip; epsilon := eps; delta := delta;
            dp_mechanism := m |} Nc n R tmpl)
  = run (build_aggregator env cf
           {| l2_norm_clip := clip; epsilon := eps; delta := delta;
              dp_mechanism := m' |} Nc n R tmpl).
Proof.
  unfold run, build_aggregator, private.
  cbn [l2_norm_clip epsilon FlUtils.delta dp_mechanism].
  rewrite <- Hlow. destruct Hknown as [->| ->]; reflexivity.
Qed.

Lemma mechanism_case_insensitive_witness :
  lower "DDGauss" = lower "ddGAUSS" /\ lower "DDGauss" = "ddgauss" /\
  run (build_aggregator sample_env sample_compression
         (sample_flags "DDGauss" None) 1000 100 10 [[1000%N; 1000%N]])
  = run (build_aggregator sample_env sample_compression
           (sample_flags "ddGAUSS" None) 1000 100 10 [[1000%N; 1000%N]]).
Proof.
  split; [reflexivity|]. split; [reflexivity|].
  exact (mechanism_case_insensitive sample_env sample_compression
           (Some 1%Q) (Some 2%Q) None "DDGauss" "ddGAUSS" 1000 100 10
           [[1000%N; 1000%N]] eq_refl (or_intror eq_refl)).
Defined.

Variable env : collaborators.
Variable cf : CompressionFlags.
Variable df : DpFlags.
Variables Nc n R : Z.
Variable tmpl : list shape.

Abbreviation flag_run := (run (build_aggregator env cf df Nc n R tmpl)).

(** X14: on the discrete branch a [k_stddevs] flag that is [None] or [0]
    becomes [4]: that is the [k] the accountant is asked with and the value
    a returned params record holds under 'k_stddevs'. *)
Theorem k_stddevs_defaults_to_four
    (eps c : Q)
    (Heps : epsilon df = Some eps) (Hpos : (0 < eps)%Q)
    (Hclip : l2_norm_clip df = Some c) (Hc : (0 < c)%Q)
    (HN : Nc <> 0)
    (Hm : lower (dp_mechanism df) = "ddgauss")
    (Hk : k_stddevs cf = None \/ exists k, k_stddevs cf = Some k /\ (k == 0)%Q) :
  head (calls (fst flag_run)) =
    Some (ddgauss_params_call (inject_Z n / inject_Z Nc)%Q eps c (num_bits cf) n
            (pad_dim (get_total_dim tmpl)) (delta_or_default (delta df) Nc)
            (beta cf) R 4) /\
  (forall agg params,
     snd flag_run = inr (agg, params) ->
     params !! "k_stddevs" = Some (VNum 4)).
Proof.
  rewrite (run_dispatch env cf df Nc n R tmpl eps c) by assumption.
  cbv zeta. rewrite Hm.
  change ("ddgauss" =? "gaussian")%string with false.
  change ("ddgauss" =? "ddgauss")%string with true. cbv iota.
  match goal with
  | |- context [ddgauss env cf n R tmpl ?p ?m ?e ?d ?c ?q ?dim ?tr] =>
      set (run_dd := ddgauss env cf n R tmpl p m e d c q dim tr);
      destruct (ddgauss_first_call env cf n R tmpl p m e d c q dim tr)
        as (rest & res & Hfirst);
      pose proof (ddgauss_success env cf n R tmpl p m e d c q dim tr) as Hok
  end.
  fold run_dd in Hfirst, Hok. rewrite (k_default _ Hk) in Hfirst, Hok.
  split; [rewrite Hfirst; reflexivity|].
  intros agg params He. destruct run_dd as [tr' res'].
  cbn [snd] in He. subst res'.
  destruct (Hok _ _ _ eq_refl) as (? & ? & ? & _ & _ & _ & _ & _ & _ & -> & _).
  apply lookup_union_Some_l. reflexivity.
Qed.

(** X15: a delta flag that is not zero is used as it is given, inside
    [(0, 1]] or not: it is the delta of the first call to the accountant
    and the value a returned params record holds under 'delta'. *)
Theorem nonzero_delta_is_used_as_given
    (eps c d : Q)
    (Heps : epsilon df = Some eps) (Hpos : (0 < eps)%Q)
    (Hclip : l2_norm_clip df = Some c) (Hc : (0 < c)%Q)
    (HN : Nc <> 0)
    (Hm : lower (dp_mechanism df) = "gaussian" \/
          lower (dp_mechanism df) = "ddgauss")
    (Hd : delta df = Some d) (Hd0 : ~ (d == 0)%Q) :
  head (calls (fst flag_run)) =
    Some (if String.eqb (lower (dp_mechanism df)) "gaussian"
          then get_gauss_noise_multiplier_call eps d
                 (inject_Z n / inject_Z Nc)%Q R
          else ddgauss_params_call (inject_Z n / inject_Z Nc)%Q eps c
                 (num_bits cf) n (pad_dim (get_total_dim tmpl)) d (beta cf) R
                 (k_or_default (k_stddevs cf))) /\
  (forall agg params,
     snd flag_run = inr (agg, params) -> params !! "delta" = Some (VNum d)).
Proof.
  rewrite (run_dispatch env cf df Nc n R tmpl eps c) by assumption.
  cbv zeta. rewrite Hd, (delta_given _ _ Hd0).
  destruct Hm as [Hg|Hg]; rewrite Hg.
  - change ("gaussian" =? "gaussian")%string with true. cbv iota.
    rewrite gaussian_run. cbv zeta.
    destruct (get_gauss_noise_multiplier env _ _ _ _) as [what|z];
      cbn [fst snd].
    + split; [reflexivity | discriminate].
    + split; [reflexivity|]. intros agg params [= <- <-]. reflexivity.
  - change ("ddgauss" =? "gaussian")%string with false.
    change ("ddgauss" =? "ddgauss")%string with true. cbv iota.
    match goal with
    | |- context [ddgauss env cf n R tmpl ?p ?m ?e ?d ?c ?q ?dim ?tr] =>
        set (run_dd := ddgauss env cf n R tmpl p m e d c q dim tr);
        destruct (ddgauss_first_call env cf n R tmpl p m e d c q dim tr)
          as (rest & res & Hfirst);
        pose proof (ddgauss_success env cf n R tmpl p m e d c q dim tr) as Hok
    end.
    fold run_dd in Hfirst, Hok.
    split; [rewrite Hfirst; reflexivity|].
    intros agg params He. destruct run_dd as [tr' res'].
    cbn [snd] in He. subst res'.
    destruct (Hok _ _ _ eq_refl) as (? & ? & ? & _ & _ & _ & _ & _ & _ & -> & _).
    unfold update. rewrite lookup_union_r by reflexivity. reflexivity.
Qed.

End Flags.

Section FlagsExamples.
Import Py Dimension FlUtils.

Lemma k_stddevs_defaults_to_four_witness :
  let cf := {| k_stddevs := Some 0%Q; beta := 1 # 2; num_bits := 16 |} in
  let r := run (build_aggregator sample_env cf (sample_flags "ddgauss" None)
                  1000 100 10 [[1000%N; 1000%N]]) in
  (exists k, k_stddevs cf = Some k /\ (k == 0)%Q) /\
  head (calls (fst r)) =
    Some (ddgauss_params_call (inject_Z 100 / inject_Z 1000) 2 1 16 100
            (pad_dim (get_total_dim [[1000%N; 1000%N]]))
            (1 / inject_Z 1000) (1 # 2) 10 4) /\
  exists agg params,
    snd r = inr (agg, params) /\ params !! "k_stddevs" = Some (VNum 4).
Proof.
  cbv zeta.
  set (cf := {| k_stddevs := Some 0%Q; beta := 1 # 2; num_bits := 16 |}).
  assert (HN : 1000 <> 0) by discriminate.
  assert (Hk : k_stddevs cf = None \/
               exists k, k_stddevs cf = Some k /\ (k == 0)%Q)
    by (right; exists 0%Q; split; reflexivity).
  pose proof (k_stddevs_defaults_to_four sample_env cf
                (sample_flags "ddgauss" None) 1000 100 10 [[1000%N; 1000%N]]
                2 1 eq_refl eq_refl eq_refl eq_refl HN eq_refl Hk)
    as (Hcall & Hrec).
  destruct (sample_ddgauss_returns cf (sample_flags "ddgauss" None)
              1000 100 10 [[1000%N; 1000%N]] 2 1
              eq_refl eq_refl eq_refl eq_refl HN eq_refl)
    as (tr & agg & params & Hrun).
  assert (Hret : snd (run (build_aggregator sample_env cf
                             (sample_flags "ddgauss" None) 1000 100 10
                             [[1000%N; 1000%N]])) = inr (agg, params))
    by (rewrite Hrun; reflexivity).
  split; [exists 0%Q; split; reflexivity|]. split; [exact Hcall|].
  exists agg, params. split; [exact Hret | exact (Hrec _ _ Hret)].
Defined.

Lemma nonzero_delta_is_used_as_given_witness :
  let df := sample_flags "gaussian" (Some 7%Q) in
  let r := run (build_aggregator sample_env sample_compression df
                  1000 100 10 [[1000%N; 1000%N]]) in
  delta df = Some 7%Q /\ ~ (7 == 0)%Q /\
  head (calls (fst r)) =
    Some (get_gauss_noise_multiplier_call 2 7 (inject_Z 100 / inject_Z 1000) 10) /\
  exists params,
    snd r = inr (gaussian_fixed (3 # 2) 100 1, params) /\
    params !! "delta" = Some (VNum 7).
Proof.
  cbv zeta.
  assert (HN : 1000 <> 0) by discriminate.
  assert (H7 : ~ (7 == 0)%Q) by discriminate.
  pose proof (nonzero_delta_is_used_as_given sample_env sample_compression
                (sample_flags "gaussian" (Some 7%Q)) 1000 100 10
                [[1000%N; 1000%N]] 2 1 7 eq_refl eq_refl eq_refl eq_refl HN
                (or_introl eq_refl) eq_refl H7) as (Hcall & Hrec).
  destruct (sample_gaussian_returns sample_compression
              (sample_flags "gaussian" (Some 7%Q)) 1000 100 10
              [[1000%N; 1000%N]] 2 1
              eq_refl eq_refl eq_refl eq_refl HN eq_refl)
    as (tr & params & Hrun).
  assert (Hret : snd (run (build_aggregator sample_env sample_compression
                             (sample_flags "gaussian" (Some 7%Q)) 1000 100 10
                             [[1000%N; 1000%N]]))
                 = inr (gaussian_fixed (3 # 2) 100 1, params))
    by (rewrite Hrun; reflexivity).
  split; [reflexivity|]. split; [exact H7|]. split; [exact Hcall|].
  exists params. split; [exact Hret | exact (Hrec _ _ Hret)].
Defined.

End FlagsExamples.

(** ** More on the discrete branch *)

Section Discrete.
Import Py Dimension FlUtils.

Variable env : collaborators.
Variable cf : CompressionFlags.
Variable df : DpFlags.
Variables Nc n R : Z.
Variable tmpl : list shape.

(** X16: a ddgauss construction that succeeds has asked the accountant
    exactly twice: first for [(gamma, local_stddev)], then for the rounded
    L2 bound of the clip scaled by [1 / gamma], at the padded dimension. *)
Theorem ddgauss_asks_accountant_twice
    (eps : Q) (tr : list event) (agg : factory) (params : dict)
    (Hsel : dp_selected df eps)
    (Hm : lower (dp_mechanism df) = "ddgauss")
    (Hrun : run (build_aggregator env cf df Nc n R tmpl) = (tr, inr (agg, params))) :
  exists clip gamma local_stddev,
    let padded_dim := pad_dim (get_total_dim tmpl) in
    let first :=
      ddgauss_params_call (inject_Z n / inject_Z Nc)%Q eps clip (num_bits cf) n
        padded_dim (delta_or_default (delta df) Nc) (beta cf) R
        (k_or_default (k_stddevs cf)) in
    l2_norm_clip df = Some clip /\
    ddgauss_params env (inject_Z n / inject_Z Nc)%Q eps clip (num_bits cf) n
      padded_dim (delta_or_default (delta df) Nc) (beta cf) R
      (k_or_default (k_stddevs cf)) = inr (gamma, local_stddev) /\
    calls tr =
      [first;
       rounded_l2_norm_bound_call (clip * (1 / gamma))%Q (beta cf) padded_dim].
Proof.
  destruct (build_ddgauss_success _ _ _ _ _ _ _ _ _ _ _ Hsel Hm Hrun)
    as (c & Hclip & _ & _ & _ & Hdd).
  destruct (ddgauss_success _ _ _ _ _ _ _ _ _ _ _ _ _ _ _ _ Hdd)
    as (gamma & local_stddev & bound & Hacct & _ & _ & _ & _ & _ & _ & ->).
  exists c, gamma, local_stddev. cbv zeta.
  split; [exact Hclip|]. split; [exact Hacct | reflexivity].
Qed.

(** X17: the params record of a ddgauss construction that succeeds has
    nineteen entries; it holds the schedule, the bit width, beta, the total
    dimension of the template and its padding, and the entries 'dim' and
    'mechanism' written by both dictionaries keep their value. *)
Theorem ddgauss_params_record
    (eps : Q) (tr : list event) (agg : factory) (params : dict)
    (Hsel : dp_selected df eps)
    (Hm : lower (dp_mechanism df) = "ddgauss")
    (Hrun : run (build_aggregator env cf df Nc n R tmpl) = (tr, inr (agg, params))) :
  size params = 19%nat /\
  params !! "num_clients" = Some (VInt Nc) /\
  params !! "num_clients_per_round" = Some (VInt n) /\
  params !! "num_rounds" = Some (VInt R) /\
  params !! "bits" = Some (VInt (num_bits cf)) /\
  params !! "beta" = Some (VNum (beta cf)) /\
  params !! "dim" = Some (VNat (get_total_dim tmpl)) /\
  params !! "padded_dim" = Some (VNat (pad_dim (get_total_dim tmpl))) /\
  params !! "mechanism" = Some (VStr "ddgauss").
Proof.
  destruct (build_ddgauss_success _ _ _ _ _ _ _ _ _ _ _ Hsel Hm Hrun)
    as (c & _ & _ & _ & _ & Hdd).
  destruct (ddgauss_success _ _ _ _ _ _ _ _ _ _ _ _ _ _ _ _ Hdd)
    as (gamma & local_stddev & bound & _ & _ & _ & _ & _ & _ & -> & _).
  repeat split; reflexivity.
Qed.

(** X18: the modular range of a ddgauss construction that succeeds is
    symmetric and has zero inside, whatever the bit width; for a bit width
    of at least one its bounds are the integers [-2^(bits-1)] and
    [2^(bits-1)]. *)
Theorem modular_range_around_zero
    (eps : Q) (tr : list event) (agg : factory) (params : dict)
    (Hsel : dp_selected df eps)
    (Hm : lower (dp_mechanism df) = "ddgauss")
    (Hrun : run (build_aggregator env cf df Nc n R tmpl) = (tr, inr (agg, params))) :
  exists lo hi,
    In (ModularSum lo hi) (stages agg) /\
    (lo == - hi)%Q /\ (lo < 0)%Q /\ (0 < hi)%Q /\
    (1 <= num_bits cf ->
     (hi == inject_Z (2 ^ (num_bits cf - 1)))%Q /\
     (lo == inject_Z (- 2 ^ (num_bits cf - 1)))%Q).
Proof.
  destruct (build_ddgauss_success _ _ _ _ _ _ _ _ _ _ _ Hsel Hm Hrun)
    as (c & _ & _ & _ & _ & Hdd).
  destruct (ddgauss_success _ _ _ _ _ _ _ _ _ _ _ _ _ _ _ _ Hdd)
    as (gamma & local_stddev & bound & _ & _ & _ & _ & _ & -> & _).
  exists (- (2 ^ (num_bits cf - 1)))%Q, (2 ^ (num_bits cf - 1))%Q.
  assert (Hin : In (ModularSum (- (2 ^ (num_bits cf - 1)))%Q
                      (2 ^ (num_bits cf - 1))%Q)
                  (stages (UnweightedMeanFactory (Some (clipping_factory c
                     (DifferentiallyPrivateFactory
                        (build_ddp_query "ddgauss" local_stddev c (beta cf)
                           (pad_dim (get_total_dim tmpl)) (1 / gamma) tmpl)
                        (ModularClippingSumFactory (- (2 ^ (num_bits cf - 1)))%Q
                           (2 ^ (num_bits cf - 1))%Q SumFactory)))))))
    by (simpl; auto).
  assert (Hpos : (0 < 2 ^ (num_bits cf - 1))%Q)
    by (apply Qpower_0_lt; reflexivity).
  split; [exact Hin|]. split; [reflexivity|].
  split; [apply (Qopp_lt_compat 0); exact Hpos|]. split; [exact Hpos|].
  intros Hbits.
  assert (Hint : (inject_Z (2 ^ (num_bits cf - 1)) == 2 ^ (num_bits cf - 1))%Q)
    by (apply (Zpower_Qpower 2); lia).
  split; [now rewrite Hint|].
  rewrite inject_Z_opp, Hint. reflexivity.
Qed.

End Discrete.

Section DiscreteExamples.
Import Py Dimension FlUtils.

Abbreviation discrete_run :=
  (run (build_aggregator sample_env sample_compression
          (sample_flags "ddgauss" None) 1000 100 10 [[1000%N; 1000%N]])).

Lemma discrete_run_returns :
  dp_selected (sample_flags "ddgauss" None) 2 /\
  exists tr agg params, discrete_run = (tr, inr (agg, params)).
Proof.
  split; [split; [reflexivity | discriminate]|].
  assert (HN : 1000 <> 0) by discriminate.
  exact (sample_ddgauss_returns sample_compression (sample_flags "ddgauss" None)
           1000 100 10 [[1000%N; 1000%N]] 2 1
           eq_refl eq_refl eq_refl eq_refl HN eq_refl).
Qed.

Lemma ddgauss_asks_accountant_twice_witness :
  exists tr agg params,
    discrete_run = (tr, inr (agg, params)) /\
    calls tr =
      [ddgauss_params_call (inject_Z 100 / inject_Z 1000) 2 1 16 100
         (pad_dim (get_total_dim [[1000%N; 1000%N]])) (1 / inject_Z 1000)
         (1 # 2) 10 4;
       rounded_l2_norm_bound_call (1 * (1 / (1 # 8))) (1 # 2)
         (pad_dim (get_total_dim [[1000%N; 1000%N]]))].
Proof.
  destruct discrete_run_returns as (Hsel & tr & agg & params & Hrun).
  exists tr, agg, params. split; [exact Hrun|].
  destruct (ddgauss_asks_accountant_twice sample_env sample_compression
              (sample_flags "ddgauss" None) 1000 100 10 [[1000%N; 1000%N]]
              2 tr agg params Hsel eq_refl Hrun)
    as (clip & gamma & local_stddev & Hclip & Hacct & Hcalls).
  injection Hclip as <-. injection Hacct as <- <-. exact Hcalls.
Defined.

Lemma ddgauss_params_record_witness :
  exists tr agg params,
    discrete_run = (tr, inr (agg, params)) /\
    size params = 19%nat /\
    params !! "dim" = Some (VNat 1000000) /\
    params !! "padded_dim" = Some (VNat 1048576) /\
    params !! "mechanism" = Some (VStr "ddgauss").
Proof.
  destruct discrete_run_returns as (Hsel & tr & agg & params & Hrun).
  exists tr, agg, params. split; [exact Hrun|].
  destruct (ddgauss_params_record sample_env sample_compression
              (sample_flags "ddgauss" None) 1000 100 10 [[1000%N; 1000%N]]
              2 tr agg params Hsel eq_refl Hrun)
    as (Hsize & _ & _ & _ & _ & _ & Hdim & Hpad & Hmech).
  split; [exact Hsize|]. split; [exact Hdim|]. split; [exact Hpad | exact Hmech].
Defined.

Lemma modular_range_around_zero_witness :
  1 <= num_bits sample_compression /\
  exists tr agg params,
    discrete_run = (tr, inr (agg, params)) /\
    exists lo hi,
      In (ModularSum lo hi) (stages agg) /\
      (lo == - hi)%Q /\ (lo < 0)%Q /\ (0 < hi)%Q /\
      (hi == inject_Z 32768)%Q /\ (lo == inject_Z (- 32768))%Q.
Proof.
  assert (Hbits : 1 <= num_bits sample_compression) by discriminate.
  split; [exact Hbits|].
  destruct discrete_run_returns as (Hsel & tr & agg & params & Hrun).
  exists tr, agg, params. split; [exact Hrun|].
  destruct (modular_range_around_zero sample_env sample_compression
              (sample_flags "ddgauss" None) 1000 100 10 [[1000%N; 1000%N]]
              2 tr agg params Hsel eq_refl Hrun)
    as (lo & hi & Hin & Hsym & Hlo & Hhi & Hint).
  destruct (Hint Hbits) as [Hh Hl].
  exists lo, hi. split; [exact Hin|]. split; [exact Hsym|].
  split; [exact Hlo|]. split; [exact Hhi|]. split; [exact Hh | exact Hl].
Defined.

End DiscreteExamples.

Section Baseline.
Import Py Dimension FlUtils.

(** X19: the baseline (gaussian) branch never reads the compression flags:
    the outcome is the same for every bit width, beta and k_stddevs. *)
Theorem baseline_never_reads_compression_flags
    (env : collaborators) (cf cf' : CompressionFlags) (df : DpFlags)
    (Nc n R : Z) (tmpl : list shape)
    (Hm : lower (dp_mechanism df) = "gaussian") :
  run (build_aggregator env cf df Nc n R tmpl)
  = run (build_aggregator env cf' df Nc n R tmpl).
Proof. now apply gaussian_ignores_compression. Qed.

Lemma baseline_never_reads_compression_flags_witness :
  lower (dp_mechanism (sample_flags "GAUSSIAN" None)) = "gaussian" /\
  run (build_aggregator sample_env sample_compression
         (sample_flags "GAUSSIAN" None) 1000 100 10 [[1000%N; 1000%N]])
  = run (build_aggregator sample_env
           {| k_stddevs := Some (-1)%Q; beta := 5; num_bits := -40 |}
           (sample_flags "GAUSSIAN" None) 1000 100 10 [[1000%N; 1000%N]]).
Proof.
  split; [reflexivity|].
  exact (baseline_never_reads_compression_flags sample_env sample_compression
           {| k_stddevs := Some (-1)%Q; beta := 5; num_bits := -40 |}
           (sample_flags "GAUSSIAN" None) 1000 100 10 [[1000%N; 1000%N]]
           eq_refl).
Defined.

End Baseline.

(** ** Loading and preprocessing EMNIST *)

Section Emnist.
Import Py EmnistDataset.

Context {client_data : Type}.
Variable load_data : bool -> string + (client_data * client_data).
Variables train_batch test_batch train_epochs test_epochs : Z.
Variables train_buffer test_buffer : Z.
Variable only_digits : bool.

Abbreviation federated :=
  (run (get_federated_datasets load_data train_batch test_batch train_epochs
          test_epochs train_buffer test_buffer only_digits)).

Lemma clamp_max (b : Z) : (if b <=? 1 then 1 else b) = Z.max 1 b.
Proof. destruct (Z.leb_spec b 1); lia. Qed.

(** X20: a number of train epochs below one is rejected first, whatever the
    other arguments are, and before the data is loaded. *)
Theorem train_epochs_below_one_rejected (Htrain : train_epochs < 1) :
  run (get_federated_datasets load_data train_batch test_batch train_epochs
         test_epochs train_buffer test_buffer only_digits)
  = ([], inl (ValueError "train_client_epochs_per_round must be a positive integer.")).
Proof.
  unfold get_federated_datasets. py_red.
  apply Z.ltb_lt in Htrain. now rewrite Htrain.
Qed.

(** X21: the number of test epochs is rejected only when it is negative.
    Zero passes the check (the message asks for a positive integer): the
    data is then loaded, and when the loader returns the test client data is
    preprocessed with zero repetitions. *)
Theorem test_epochs_rejected_only_when_negative (Htrain : 1 <= train_epochs) :
  (test_epochs < 0 ->
   run (get_federated_datasets load_data train_batch test_batch train_epochs
          test_epochs train_buffer test_buffer only_digits)
   = ([], inl (ValueError "test_client_epochs_per_round must be a positive integer."))) /\
  (0 <= test_epochs ->
   fst federated = [load_data_called only_digits] /\
   forall train test,
     load_data only_digits = inr (train, test) ->
     exists fn_train fn_test,
       snd federated = inr (preprocess train fn_train, preprocess test fn_test) /\
       num_epochs fn_train = train_epochs /\
       num_epochs fn_test = test_epochs).
Proof.
  assert (H1 : (train_epochs <? 1) = false) by (apply Z.ltb_ge; lia).
  unfold get_federated_datasets. py_red. rewrite H1. cbv beta iota zeta.
  split; intros Htest.
  - apply Z.ltb_lt in Htest. now rewrite Htest.
  - assert (H0 : (test_epochs <? 0) = false) by (apply Z.ltb_ge; lia).
    rewrite H0. cbv beta iota zeta.
    destruct (load_data only_digits) as [what|[train test]]; cbn [fst snd].
    + split; [reflexivity | discriminate].
    + split; [reflexivity|]. intros ? ? [= <- <-].
      do 2 eexists. split; [reflexivity|]. split; reflexivity.
Qed.

(** X22: every federated client dataset is shuffled with a buffer of at
    least one element: a requested size of one or less, negative sizes
    included, becomes one, a larger one is kept; no batch drops its
    remainder. *)
Theorem federated_shuffle_buffer_clamped
    (train test : preprocessed_client_data client_data)
    (Hret : snd federated = inr (train, test)) :
  exists cd_train cd_test fn_train fn_test,
    train = preprocess cd_train fn_train /\
    test = preprocess cd_test fn_test /\
    load_data only_digits = inr (cd_train, cd_test) /\
    forall d : dataset client_data,
      shuffle_buffers (call_partial fn_train d)
        = (Z.max 1 train_buffer) :: shuffle_buffers d /\
      shuffle_buffers (call_partial fn_test d)
        = (Z.max 1 test_buffer) :: shuffle_buffers d /\
      drops_remainder (call_partial fn_train d) = drops_remainder d /\
      drops_remainder (call_partial fn_test d) = drops_remainder d.
Proof.
  revert Hret. unfold get_federated_datasets. py_red.
  destruct (train_epochs <? 1); [discriminate|]. cbv beta iota zeta.
  destruct (test_epochs <? 0); [discriminate|]. cbv beta iota zeta.
  destruct (load_data only_digits) as [what|[cd_train cd_test]];
    [discriminate|].
  cbn [fst snd]. intros [= <- <-].
  do 4 eexists. split; [reflexivity|]. split; [reflexivity|].
  split; [reflexivity|].
  intros d. unfold call_partial, _preprocess. cbn.
  rewrite !clamp_max. repeat split; reflexivity.
Qed.

End Emnist.

Section EmnistExamples.
Import Py EmnistDataset.

Lemma train_epochs_below_one_rejected_witness :
  0 < 1 /\
  run (get_federated_datasets sample_load_data 20 100 0 (-3)
         MAX_CLIENT_DATASET_SIZE 1 false)
  = ([], inl (ValueError "train_client_epochs_per_round must be a positive integer.")).
Proof.
  assert (H : 0 < 1) by reflexivity.
  split; [exact H|].
  exact (train_epochs_below_one_rejected sample_load_data 20 100 0 (-3)
           MAX_CLIENT_DATASET_SIZE 1 false H).
Defined.

Lemma test_epochs_rejected_only_when_negative_witness :
  1 <= 1 /\ 0 <= 0 /\
  sample_load_data false = inr ("emnist62-train", "emnist62-test") /\
  exists fn_train fn_test,
    snd (run (get_federated_datasets sample_load_data 20 100 1 0
                MAX_CLIENT_DATASET_SIZE 1 false))
    = inr (preprocess "emnist62-train" fn_train,
           preprocess "emnist62-test" fn_test) /\
    num_epochs fn_train = 1 /\ num_epochs fn_test = 0.
Proof.
  assert (H1 : 1 <= 1) by discriminate.
  assert (H0 : 0 <= 0) by discriminate.
  split; [exact H1|]. split; [exact H0|]. split; [reflexivity|].
  destruct (test_epochs_rejected_only_when_negative sample_load_data 20 100 1 0
              MAX_CLIENT_DATASET_SIZE 1 false H1) as [_ Hzero].
  destruct (Hzero H0) as [_ Hload].
  exact (Hload "emnist62-train" "emnist62-test" eq_refl).
Defined.

Lemma federated_shuffle_buffer_clamped_witness :
  let r := run (get_federated_datasets sample_load_data 20 100 1 1
                  MAX_CLIENT_DATASET_SIZE (-5) true) in
  let train := preprocess "emnist10-train"
                 {| shuffle_buffer_size := 418; num_epochs := 1; batch_size := 20 |} in
  let test := preprocess "emnist10-test"
                {| shuffle_buffer_size := 1; num_epochs := 1; batch_size := 100 |} in
  snd r = inr (train, test) /\
  exists fn_train fn_test,
    train = preprocess "emnist10-train" fn_train /\
    test = preprocess "emnist10-test" fn_test /\
    forall d : dataset string,
      shuffle_buffers (call_partial fn_train d) = 418 :: shuffle_buffers d /\
      shuffle_buffers (call_partial fn_test d) = 1 :: shuffle_buffers d.
Proof.
  cbv zeta.
  assert (Hret : snd (run (get_federated_datasets sample_load_data 20 100 1 1
                             MAX_CLIENT_DATASET_SIZE (-5) true))
                 = inr (preprocess "emnist10-train"
                          {| shuffle_buffer_size := 418; num_epochs := 1;
                             batch_size := 20 |},
                        preprocess "emnist10-test"
                          {| shuffle_buffer_size := 1; num_epochs := 1;
                             batch_size := 100 |}))
    by reflexivity.
  split; [exact Hret|].
  destruct (federated_shuffle_buffer_clamped sample_load_data 20 100 1 1
              MAX_CLIENT_DATASET_SIZE (-5) true _ _ Hret)
    as (cd1 & cd2 & fn1 & fn2 & E1 & E2 & Hload & Hd).
  injection Hload as <- <-.
  exists fn1, fn2. split; [exact E1|]. split; [exact E2|].
  intros d. destruct (Hd d) as (Ha & Hb & _). split; [exact Ha | exact Hb].
Defined.

End EmnistExamples.
